(** * The network session layer of [video_conference.py]

    A shallow embedding of the methods of [VideoConference] that implement
    the message framing, the host's accept loop, per-connection handler and
    broadcast, the client's join-with-retry, and the chunked file transfer,
    together with the properties that the session-layer specification states
    about them.

    Python objects are modelled as follows.
    - [bytes] values are lists of [Byte.byte]; integers are [Z].
    - A [dict] with string keys is a [gmap string pyval]; [d[k]] is a lookup
      that raises [KeyError] when the key is absent and [d.get(k)] is the
      plain lookup.
    - Socket objects live in a store indexed by identity, so that the
      registry [clients], a snapshot of it and a handler all refer to the
      same socket.
    - A method is a function from the state of the object and of its
      environment to an outcome and a new state; an exception keeps the
      mutations made before it was raised. *)

From Stdlib Require Import ZArith Lia List.
From Stdlib Require Import Strings.Byte.
From stdpp Require Import gmap strings list fin_maps.

Set Warnings "-register-all".

Local Open Scope Z_scope.

(** ** Bytes and [struct] *)

Abbreviation bytes := (list byte).

#[global] Instance byte_eq_dec : EqDecision byte := Byte.byte_eq_dec.

Definition blen (b : bytes) : Z := Z.of_nat (length b).

Definition byte_of_Z (z : Z) : byte :=
  match Byte.of_N (Z.to_N (z mod 256)) with
  | Some b => b
  | None => x00
  end.

Definition Z_of_byte (b : byte) : Z := Z.of_N (Byte.to_N b).

(** [struct.pack('!I', n)]: four bytes, most significant first;
    [struct.error] (here [None]) when [n] does not fit 32 bits. *)
Definition struct_pack_I (n : Z) : option bytes :=
  if decide (0 <= n < 2 ^ 32) then
    Some [byte_of_Z (n / 2 ^ 24); byte_of_Z (n / 2 ^ 16);
          byte_of_Z (n / 2 ^ 8); byte_of_Z n]
  else None.

(** [struct.unpack('!I', b)[0]]: [struct.error] unless [b] has exactly
    [struct.calcsize('!I') = 4] bytes. *)
Definition struct_unpack_I (b : bytes) : option Z :=
  match b with
  | [b3; b2; b1; b0] =>
      Some (((Z_of_byte b3 * 256 + Z_of_byte b2) * 256 + Z_of_byte b1) * 256
            + Z_of_byte b0)
  | _ => None
  end.

Definition calcsize_I : Z := 4.

(** ** Python values *)

Inductive pyval :=
| PNone
| PStr (s : string)
| PInt (n : Z)
| PBytes (b : bytes)
| PDict (d : gmap string pyval).

Abbreviation pydict := (gmap string pyval).

(** Python truthiness, [if data:]. *)
Definition truthy (v : pyval) : bool :=
  match v with
  | PNone => false
  | PStr s => negb (bool_decide (s = ""%string))
  | PInt n => negb (bool_decide (n = 0))
  | PBytes b => negb (bool_decide (b = []))
  | PDict d => negb (bool_decide (d = ∅))
  end.

(** ** The libraries the code relies on

    [pickle] and [hashlib.md5] are not part of the program; the development
    is parametric in them. [loads] returns [None] where [pickle.loads]
    raises. *)

Class Pickle := {
  dumps : pyval → bytes;
  loads : bytes → option pyval
}.

Class Md5 := md5_hexdigest : bytes → string.

(** ** Sockets

    A TCP socket as the program sees it. [incoming] is what the peer sends,
    cut into the pieces in which it arrives: [recv(n)] returns at most [n]
    bytes of the first piece, and the empty byte string once the peer has
    closed and everything was read. [outgoing] collects what [send] wrote.
    [sends_left = Some n] is a link that breaks after [n] more calls of
    [send]; [None] is a link that stays up. [send] is taken to transmit the
    whole buffer it is given. *)

Definition sockid := nat.

Record socket := Socket {
  incoming : list bytes;
  outgoing : bytes;
  sends_left : option nat;
  closed : bool
}.

Fixpoint take_incoming (n : nat) (segs : list bytes) : bytes * list bytes :=
  match segs with
  | [] => ([], [])
  | [] :: rest => take_incoming n rest
  | seg :: rest => (take n seg, drop n seg :: rest)
  end.

Definition bytes_available (sk : socket) : nat := length (concat (incoming sk)).

(** ** Exceptions and observable effects *)

Inductive exn :=
| StructError
| OSError
| KeyError (k : string)
| TypeError
| AttributeError
| ZeroDivisionError
| UnpicklingError
| ValueError
| FileNotFoundError
| Exception (msg : string).

(** What one connection attempt of the client meets: [connect] raises, or
    the connection is made and waiting for the handshake raises (time-out)
    or yields a decoded value. *)
Inductive connect_outcome :=
| Refused
| Connected (handshake : option pyval).

Inductive event :=
| Log (kind message : string)
| ChatShown (sender : string) (message : pyval)
| FileProgress (name : string) (progress : Z)
| ConnectionErrorSignal (e : exn)
| Unpickle (payload : bytes)
| ThreadStarted (target : string) (s : option sockid)
| Slept (seconds : Z)
| ConnectAttempt (ip : string) (port : Z)
| SaveDialog (name : string)
| FileWritten (path : string) (content : bytes)
| UiConnected
| UiDisconnected.

(** The chat lines shown and the progress values reported among [l]. *)
Definition chat_shown (l : list event) : list (string * pyval) :=
  omap (λ e, match e with ChatShown s m => Some (s, m) | _ => None end) l.
Definition progress_reported (l : list event) : list (string * Z) :=
  omap (λ e, match e with FileProgress n p => Some (n, p) | _ => None end) l.

(** ** The state of a [VideoConference] object and of its environment

    The first seven fields are the attributes set by [_init_attributes];
    the others are the environment: the socket objects by identity, the
    file system, what the next connection attempts will meet, the answers
    of the save dialog, and the effects observed so far, oldest first. *)

Record VideoConference := Conf {
  client_socket : option sockid;
  is_connected : bool;
  is_host : bool;
  clients : list sockid;
  retry_count : Z;
  chunk_size : Z;
  pending_files : gmap string pydict;
  sockets : gmap sockid socket;
  files : gmap string bytes;
  network : list connect_outcome;
  dialogs : list (option string);
  events : list event
}.

(** [_init_attributes], in an environment [env]. *)
Definition init_attributes (env : VideoConference) : VideoConference :=
  Conf None false false [] 3 8192 ∅
       (sockets env) (files env) (network env) (dialogs env) (events env).

Definition set_client_socket (v : option sockid) (w : VideoConference) :=
  Conf v (is_connected w) (is_host w) (clients w) (retry_count w)
       (chunk_size w) (pending_files w) (sockets w) (files w) (network w)
       (dialogs w) (events w).
Definition set_is_connected (v : bool) (w : VideoConference) :=
  Conf (client_socket w) v (is_host w) (clients w) (retry_count w)
       (chunk_size w) (pending_files w) (sockets w) (files w) (network w)
       (dialogs w) (events w).
Definition set_clients (v : list sockid) (w : VideoConference) :=
  Conf (client_socket w) (is_connected w) (is_host w) v (retry_count w)
       (chunk_size w) (pending_files w) (sockets w) (files w) (network w)
       (dialogs w) (events w).
Definition set_pending_files (v : gmap string pydict) (w : VideoConference) :=
  Conf (client_socket w) (is_connected w) (is_host w) (clients w)
       (retry_count w) (chunk_size w) v (sockets w) (files w) (network w)
       (dialogs w) (events w).
Definition set_sockets (v : gmap sockid socket) (w : VideoConference) :=
  Conf (client_socket w) (is_connected w) (is_host w) (clients w)
       (retry_count w) (chunk_size w) (pending_files w) v (files w)
       (network w) (dialogs w) (events w).
Definition set_files (v : gmap string bytes) (w : VideoConference) :=
  Conf (client_socket w) (is_connected w) (is_host w) (clients w)
       (retry_count w) (chunk_size w) (pending_files w) (sockets w) v
       (network w) (dialogs w) (events w).
Definition set_network (v : list connect_outcome) (w : VideoConference) :=
  Conf (client_socket w) (is_connected w) (is_host w) (clients w)
       (retry_count w) (chunk_size w) (pending_files w) (sockets w)
       (files w) v (dialogs w) (events w).
Definition set_dialogs (v : list (option string)) (w : VideoConference) :=
  Conf (client_socket w) (is_connected w) (is_host w) (clients w)
       (retry_count w) (chunk_size w) (pending_files w) (sockets w)
       (files w) (network w) v (events w).
Definition set_events (v : list event) (w : VideoConference) :=
  Conf (client_socket w) (is_connected w) (is_host w) (clients w)
       (retry_count w) (chunk_size w) (pending_files w) (sockets w)
       (files w) (network w) (dialogs w) v.

(** ** Methods as state transformers with exceptions *)

Inductive outcome (A : Type) :=
| Done (a : A)
| Raised (e : exn)
| Stuck.
Arguments Done {A} a.
Arguments Raised {A} e.
Arguments Stuck {A}.

Definition Py (A : Type) : Type := VideoConference → outcome A * VideoConference.

#[global] Instance Py_ret : MRet Py := λ A a w, (Done a, w).
#[global] Instance Py_bind : MBind Py := λ A B f m w,
  match m w with
  | (Done a, w') => f a w'
  | (Raised e, w') => (Raised e, w')
  | (Stuck, w') => (Stuck, w')
  end.

Definition raise {A} (e : exn) : Py A := λ w, (Raised e, w).
Definition stuck {A} : Py A := λ w, (Stuck, w).
Definition gets {A} (f : VideoConference → A) : Py A := λ w, (Done (f w), w).
Definition modify (f : VideoConference → VideoConference) : Py unit :=
  λ w, (Done tt, f w).

(** [try: m except Exception as e: h e] *)
Definition try_except {A} (m : Py A) (h : exn → Py A) : Py A := λ w,
  match m w with
  | (Raised e, w') => h e w'
  | r => r
  end.

(** [try: m finally: f] *)
Definition try_finally {A} (m : Py A) (f : Py unit) : Py A := λ w,
  match m w with
  | (Stuck, w') => (Stuck, w')
  | (r, w') =>
      match f w' with
      | (Done _, w'') => (r, w'')
      | (Raised e, w'') => (Raised e, w'')
      | (Stuck, w'') => (Stuck, w'')
      end
  end.

(** [try: m except: pass] *)
Definition try_pass (m : Py unit) : Py unit := try_except m (λ _, mret tt).

Definition emit (e : event) : Py unit :=
  modify (λ w, set_events (events w ++ [e]) w).

(** [log_event] catches its own failures and never raises. *)
Definition log_event (event_type message : string) : Py unit :=
  emit (Log event_type message).

(** *** Socket methods *)

(** The socket object [s] becomes [sk]. *)
Definition with_socket (s : sockid) (sk : socket) (w : VideoConference) :=
  set_sockets (<[s := sk]> (sockets w)) w.

(** What was written on socket [s] so far, and what is still to be read
    from it. *)
Definition written (w : VideoConference) (s : sockid) : option bytes :=
  outgoing <$> sockets w !! s.
Definition unread (w : VideoConference) (s : sockid) : option bytes :=
  (λ sk, concat (incoming sk)) <$> sockets w !! s.

(** [n] more calls of [send] on [sk] will succeed. *)
Definition can_send (n : nat) (sk : socket) : bool :=
  negb (closed sk) &&
  match sends_left sk with
  | None => true
  | Some q => bool_decide (n ≤ q)%nat
  end.

Definition sock_send (s : sockid) (data : bytes) : Py unit := λ w,
  match sockets w !! s with
  | None => (Raised OSError, w)
  | Some sk =>
      if closed sk then (Raised OSError, w)
      else match sends_left sk with
           | Some O => (Raised OSError, w)
           | quota =>
               (Done tt,
                with_socket s (Socket (incoming sk) (outgoing sk ++ data)
                                      (Nat.pred <$> quota) false) w)
           end
  end.

Definition sock_recv (s : sockid) (bufsize : Z) : Py bytes := λ w,
  match sockets w !! s with
  | None => (Raised OSError, w)
  | Some sk =>
      if closed sk then (Raised OSError, w)
      else
        let '(chunk, rest) := take_incoming (Z.to_nat bufsize) (incoming sk) in
        (Done chunk,
         with_socket s (Socket rest (outgoing sk) (sends_left sk) false) w)
  end.

(** [close] may be called any number of times and does not raise. *)
Definition sock_close (s : sockid) : Py unit := λ w,
  match sockets w !! s with
  | None => (Done tt, w)
  | Some sk =>
      (Done tt,
       with_socket s (Socket (incoming sk) (outgoing sk) (sends_left sk) true)
                   w)
  end.

(** *** Operations on Python values *)

(** [v[k]] *)
Definition py_getitem (v : pyval) (k : string) : Py pyval :=
  match v with
  | PDict d => match d !! k with
               | Some x => mret x
               | None => raise (KeyError k)
               end
  | _ => raise TypeError
  end.

(** [v.get(k)] *)
Definition py_get (v : pyval) (k : string) : Py pyval :=
  match v with
  | PDict d => mret (default PNone (d !! k))
  | _ => raise AttributeError
  end.

(** [v.get(k, dflt)] *)
Definition py_get_default (v : pyval) (k : string) (dflt : pyval) : Py pyval :=
  match v with
  | PDict d => mret (default dflt (d !! k))
  | _ => raise AttributeError
  end.

(** [v == s] for a string literal [s]. *)
Definition is_str (v : pyval) (s : string) : bool :=
  match v with
  | PStr s' => bool_decide (s' = s)
  | _ => false
  end.

(** A value passed where a [str] is required. *)
Definition as_str (v : pyval) : Py string :=
  match v with
  | PStr s => mret s
  | _ => raise TypeError
  end.

(** [l.remove(x)] on a list known to hold [x]: the first occurrence goes. *)
Fixpoint remove_first (x : sockid) (l : list sockid) : list sockid :=
  match l with
  | [] => []
  | y :: l' => if decide (x = y) then l' else y :: remove_first x l'
  end.

Inductive loop_ctl := Continue | Break.

(** ** The message framer and the host side *)

Section Session.
Context `{Pickle}.

Definition pickle_loads (payload : bytes) : Py pyval :=
  emit (Unpickle payload);;
  match loads payload with
  | Some v => mret v
  | None => raise UnpicklingError
  end.

(** [struct.pack('!I', len(serialized_data))] *)
Definition pack_len (serialized_data : bytes) : Py bytes :=
  match struct_pack_I (blen serialized_data) with
  | Some size => mret size
  | None => raise StructError
  end.

(** [struct.unpack('!I', size_data)[0]] *)
Definition unpack_len (size_data : bytes) : Py Z :=
  match struct_unpack_I size_data with
  | Some n => mret n
  | None => raise StructError
  end.

Definition send_to_client (client_socket : sockid) (data : pyval) : Py unit :=
  try_except
    (let serialized_data := dumps data in
     size ← pack_len serialized_data;
     sock_send client_socket size;;
     sock_send client_socket serialized_data)
    (λ e, log_event "错误" "发送数据到客户端失败";; raise e).

(** The loop
    [while len(received_data) < data_size:
        chunk = recv(min(data_size - len(received_data), 8192))
        if not chunk: <leave>
        received_data += chunk]
    which [handle_client], [receive_from_client] and [receive_data] each
    contain. The result is [received_data] and whether the loop was left at
    an empty chunk; what happens then differs between the three. Every
    turn but the last takes at least one byte off the socket, which bounds
    the number of turns. *)
Fixpoint recv_payload (fuel : nat) (s : sockid) (data_size : Z)
    (received_data : bytes) : Py (bytes * bool) :=
  if decide (blen received_data < data_size) then
    match fuel with
    | O => stuck
    | S fuel' =>
        chunk ← sock_recv s (Z.min (data_size - blen received_data) 8192);
        if decide (chunk = []) then mret (received_data, true)
        else recv_payload fuel' s data_size (received_data ++ chunk)
    end
  else mret (received_data, false).

Definition recv_fuel (s : sockid) : Py nat :=
  gets (λ w, match sockets w !! s with
             | Some sk => S (bytes_available sk)
             | None => 1%nat
             end).

Definition recv_all (s : sockid) (data_size : Z) : Py (bytes * bool) :=
  fuel ← recv_fuel s;
  recv_payload fuel s data_size [].

Definition receive_from_client (client_socket : sockid) : Py pyval :=
  size_data ← sock_recv client_socket calcsize_I;
  if decide (size_data = []) then mret PNone
  else
    data_size ← unpack_len size_data;
    '(received_data, interrupted) ← recv_all client_socket data_size;
    if (interrupted : bool) then mret PNone
    else pickle_loads received_data.

(** The body of the [for] loop of [broadcast_data], over the snapshot
    [self.clients[:]]. *)
Fixpoint broadcast_loop (snapshot : list sockid) (exclude_socket : option sockid)
    (size serialized_data : bytes) : Py unit :=
  match snapshot with
  | [] => mret tt
  | client :: rest =>
      (if bool_decide (Some client ≠ exclude_socket) then
         try_except
           (sock_send client size;;
            sock_send client serialized_data)
           (λ e,
              log_event "错误" "向客户端发送数据失败";;
              cs ← gets clients;
              if bool_decide (client ∈ cs) then
                modify (λ w, set_clients (remove_first client (clients w)) w);;
                try_pass (sock_close client)
              else mret tt)
       else mret tt);;
      broadcast_loop rest exclude_socket size serialized_data
  end.

(** The block of [broadcast_data] under [# 在服务端显示消息]. *)
Definition broadcast_show (data : pyval) : Py unit :=
  ty ← py_getitem data "type";
  if is_str ty "chat" then
    sender ← py_get data "sender";
    content ← py_getitem data "content";
    message ← as_str content;
    emit (ChatShown (if is_str sender "client" then "对方" else "我")
                    (PStr message))
  else mret tt.

Definition broadcast_data (data : pyval) (exclude_socket : option sockid)
    : Py unit :=
  try_except
    (let serialized_data := dumps data in
     size ← pack_len serialized_data;
     snapshot ← gets clients;
     broadcast_loop snapshot exclude_socket size serialized_data;;
     broadcast_show data)
    (λ e, log_event "错误" "广播数据失败").

(** The block of [handle_client] under [# 处理接收到的数据]. The queued call
    of [add_chat_message] is taken to be delivered. *)
Definition handle_client_data (received_data : bytes) : Py unit :=
  data ← pickle_loads received_data;
  _ ← py_get data "type";
  log_event "数据接收" "收到客户端数据";;
  ty ← py_getitem data "type";
  if is_str ty "chat" then
    sender ← py_get data "sender";
    content ← py_getitem data "content";
    message ← as_str content;
    emit (ChatShown (if is_str sender "client" then "对方" else "主持人")
                    (PStr message))
  else mret tt.

(** One turn of [while self.is_host:] in [handle_client]. *)
Definition handle_client_turn (client_socket : sockid) : Py loop_ctl :=
  try_except
    (size_data ← sock_recv client_socket calcsize_I;
     if decide (size_data = []) then
       log_event "连接" "客户端断开连接(size_data为空)";;
       mret Break
     else
       data_size ← unpack_len size_data;
       '(received_data, interrupted) ← recv_all client_socket data_size;
       (if (interrupted : bool)
        then log_event "连接" "客户端断开连接(接收数据中断)"
        else mret tt);;
       if decide (received_data = []) then mret Break
       else
         try_except
           (handle_client_data received_data;; mret Continue)
           (λ e, log_event "错误" "数据处理失败";; mret Continue))
    (λ e, log_event "错误" "处理客户端数据时出错";; mret Break).

Fixpoint handle_client_loop (fuel : nat) (client_socket : sockid) : Py unit :=
  match fuel with
  | O => stuck
  | S fuel' =>
      host ← gets is_host;
      if (host : bool) then
        ctl ← handle_client_turn client_socket;
        match ctl with
        | Break => mret tt
        | Continue => handle_client_loop fuel' client_socket
        end
      else mret tt
  end.

Definition handle_client (client_socket : sockid) : Py unit :=
  try_finally
    (log_event "连接" "开始处理客户端连接";;
     fuel ← recv_fuel client_socket;
     handle_client_loop fuel client_socket)
    (cs ← gets clients;
     (if bool_decide (client_socket ∈ cs) then
        modify (λ w, set_clients (remove_first client_socket (clients w)) w)
      else mret tt);;
     try_pass (sock_close client_socket);;
     log_event "连接" "客户端连接处理结束").

Definition welcome_data (timestamp : string) : pyval :=
  PDict {[ "type" := PStr "system";
           "content" := PStr "connection_confirmed";
           "timestamp" := PStr timestamp ]}.

(** What [accept_connections] does with one connection returned by
    [accept()], at clock reading [timestamp]. *)
Definition accept_one (client_socket : sockid) (timestamp : string) : Py unit :=
  try_except
    (let serialized_data := dumps (welcome_data timestamp) in
     size ← pack_len serialized_data;
     sock_send client_socket size;;
     sock_send client_socket serialized_data;;
     log_event "连接" "已发送连接确认";;
     modify (λ w, set_clients (clients w ++ [client_socket]) w);;
     emit (ThreadStarted "handle_client" (Some client_socket)))
    (λ e,
       log_event "错误" "发送连接确认失败";;
       try_pass (sock_close client_socket)).

(** [accept_connections] over the successive results of [accept()]:
    a new connection, or [None] where [accept()] raises. When the list is
    used up [accept()] blocks. *)
Fixpoint accept_connections (arrivals : list (option (sockid * string)))
    : Py unit :=
  match arrivals with
  | [] => mret tt
  | a :: rest =>
      host ← gets is_host;
      if (host : bool) then
        match a with
        | Some (client_socket, timestamp) => accept_one client_socket timestamp
        | None =>
            host' ← gets is_host;
            if (host' : bool) then log_event "错误" "接受客户端连接失败"
            else mret tt
        end;;
        accept_connections rest
      else mret tt
  end.


(** ** The client side *)

(** Modelled from the spec: [send_data] is called by [send_chat_message]
    and [_file_transfer_task] but is not defined in the source. Section 4.1:
    "serializes message, writes a 4-byte big-endian length prefix, then the
    payload bytes; fails with ConnectionError if the underlying write cannot
    complete", here on the session's connection [self.client_socket]. *)
Definition send_data (data : pyval) : Py unit :=
  cs ← gets client_socket;
  match cs with
  | None => raise AttributeError
  | Some s =>
      let serialized_data := dumps data in
      size ← pack_len serialized_data;
      sock_send s size;;
      sock_send s serialized_data
  end.

(** [_wait_for_connection_confirm]. [_receive_data] is not defined in the
    source: what it does on the new connection is the parameter
    [receive_data_]. *)
Definition _wait_for_connection_confirm (receive_data_ : Py pyval) : Py bool :=
  try_except
    (data ← receive_data_;
     if truthy data then
       ty ← py_get data "type";
       if is_str ty "system" then
         content ← py_get data "content";
         mret (is_str content "connection_confirmed")
       else mret false
     else mret false)
    (λ _, mret false).

(** [_setup_client_connection]. Modelled from the spec:
    [_start_receive_thread] and [_update_ui_after_connect] are not defined
    in the source. Section 4.2: "On a confirmed handshake, the client enters
    Connected, starts a single receive loop, and notifies the Event Sink". *)
Definition _setup_client_connection : Py unit :=
  modify (set_is_connected true);;
  emit (ThreadStarted "receive_data" None);;
  emit UiConnected.

Definition new_socket : Py sockid := λ w,
  let s := fresh (dom (sockets w)) in
  (Done s, with_socket s (Socket [] [] None false) w).

Definition next_outcome : Py connect_outcome := λ w,
  match network w with
  | [] => (Done Refused, w)
  | o :: rest => (Done o, set_network rest w)
  end.

Definition _connect_to_server (ip : string) (port : Z) : Py unit :=
  s ← new_socket;
  modify (set_client_socket (Some s));;
  emit (ConnectAttempt ip port);;
  o ← next_outcome;
  match o with
  | Refused => raise OSError
  | Connected handshake =>
      ok ← _wait_for_connection_confirm
             (match handshake with
              | Some v => mret v
              | None => raise OSError
              end);
      if (ok : bool) then _setup_client_connection
      else raise (Exception "未收到服务器确认")
  end.

Definition disconnect_from_meeting : Py unit :=
  cs ← gets client_socket;
  match cs with
  | Some s => try_pass (sock_close s)
  | None => mret tt
  end;;
  modify (set_is_connected false);;
  emit UiDisconnected;;
  emit (ChatShown "系统" (PStr "已断开连接")).

(** The [for attempt in range(self.retry_count)] loop of [join_meeting]. *)
Fixpoint join_attempts (attempts : list Z) (ip : string) (port : Z) : Py unit :=
  match attempts with
  | [] => mret tt
  | attempt :: rest =>
      ctl ← try_except
              (_connect_to_server ip port;; mret Break)
              (λ e,
                 rc ← gets retry_count;
                 if decide (attempt = rc - 1) then
                   emit (ConnectionErrorSignal e);; mret Break
                 else
                   emit (Slept 1);; mret Continue);
      match ctl with
      | Break => mret tt
      | Continue => join_attempts rest ip port
      end
  end.

(** [range(n)] *)
Definition py_range (n : Z) : list Z := Z.of_nat <$> seq 0 (Z.to_nat n).

(** [join_meeting]; [port] is [None] where the text of the port field is
    not a number. *)
Definition join_meeting (ip : string) (port : option Z) : Py unit :=
  connected ← gets is_connected;
  if negb connected then
    match port with
    | None => raise ValueError
    | Some port =>
        rc ← gets retry_count;
        join_attempts (py_range rc) ip port
    end
  else disconnect_from_meeting.

(** [add_chat_message] formats whatever [message] it is given. *)
Definition add_chat_message (sender : string) (message : pyval) : Py unit :=
  emit (ChatShown sender message).

(** [send_chat_message], for the stripped text [message] of the input
    field at clock reading [timestamp]. *)
Definition send_chat_message (message timestamp : string) : Py unit :=
  connected ← gets is_connected;
  if negb (bool_decide (message = ""%string)) && connected then
    try_except
      (host ← gets is_host;
       let data :=
         PDict {[ "type" := PStr "chat";
                  "content" := PStr message;
                  "timestamp" := PStr timestamp;
                  "sender" := PStr (if (host : bool) then "host" else "client") ]} in
       if (host : bool) then
         broadcast_data data None;;
         add_chat_message "我" (PStr message)
       else
         send_data data;;
         add_chat_message "我" (PStr message))
      (λ e, log_event "错误" "发送消息失败")
  else mret tt.

Definition _handle_chat_data (data : pyval) : Py unit :=
  try_except
    (sender ← py_get data "sender";
     message ← py_get_default data "content" (PStr "");
     add_chat_message (if is_str sender "client" then "对方" else "主持人") message)
    (λ e, log_event "错误" "处理聊天消息失败").

Definition set_is_host (v : bool) (w : VideoConference) :=
  Conf (client_socket w) (is_connected w) v (clients w) (retry_count w)
       (chunk_size w) (pending_files w) (sockets w) (files w) (network w)
       (dialogs w) (events w).

(** [for client in self.clients: try: client.close() except: pass] *)
Fixpoint close_all (cs : list sockid) : Py unit :=
  match cs with
  | [] => mret tt
  | client :: rest => try_pass (sock_close client);; close_all rest
  end.

(** [stop_server]; the listening socket [self.server_socket], which
    [create_meeting] sets, is the parameter [server_socket]. The four
    updates of the window that end the method are one event. *)
Definition stop_server (server_socket : sockid) : Py unit :=
  host ← gets is_host;
  if (host : bool) then
    cs ← gets clients;
    close_all cs;;
    try_pass (sock_close server_socket);;
    modify (set_is_host false);;
    modify (set_is_connected false);;
    modify (set_clients []);;
    emit UiDisconnected
  else mret tt.

End Session.

(** ** The file transfer engine *)

Section FileTransfer.
Context `{Pickle} `{Md5}.

Definition as_int (v : pyval) : Py Z :=
  match v with
  | PInt n => mret n
  | _ => raise TypeError
  end.

Definition as_bytes (v : pyval) : Py bytes :=
  match v with
  | PBytes b => mret b
  | _ => raise TypeError
  end.

(** [self.pending_files[transfer_id]] *)
Definition pending_entry (transfer_id : string) : Py pyval :=
  pf ← gets pending_files;
  match pf !! transfer_id with
  | Some d => mret (PDict d)
  | None => raise (KeyError transfer_id)
  end.

(** [del self.pending_files[transfer_id]] *)
Definition del_pending (transfer_id : string) : Py unit :=
  pf ← gets pending_files;
  match pf !! transfer_id with
  | Some _ => modify (set_pending_files (delete transfer_id pf))
  | None => raise (KeyError transfer_id)
  end.

(** [open(path, 'rb')]: the content that the file object will read. *)
Definition open_rb (path : string) : Py bytes :=
  fs ← gets files;
  match fs !! path with
  | Some content => mret content
  | None => raise FileNotFoundError
  end.

(** [f.read(n)] on the unread rest of a file: the chunk and what is left. *)
Definition file_read (rest : bytes) (n : Z) : bytes * bytes :=
  if decide (n < 0) then (rest, [])
  else (take (Z.to_nat n) rest, drop (Z.to_nat n) rest).

(** [n / d] rounded to the nearest integer, a tie going to the even one,
    for [0 ≤ n] and [0 < d]. *)
Definition round_half_even (n d : Z) : Z :=
  let q := n / d in
  let r := n mod d in
  if decide (2 * r < d) then q
  else if decide (d < 2 * r) then q + 1
  else if Z.even q then q else q + 1.

(** [int(n / d)] for Python ints [0 ≤ n] and [0 < d]. [/] on two ints is
    the double nearest to the exact quotient, a tie going to the even
    significand, and [int] drops the fraction. A quotient below 1/2 gives a
    double of at most 0.5. Any other quotient has an exponent [e ≥ -1] and
    is rounded to 53 significant bits: to [m * 2^(e-52)], where [m] is the
    integer nearest to the quotient times [2^(52-e)]. The operands are
    lengths and sizes of objects in memory, which keeps the quotient far
    below the largest double: [OverflowError] is left out. *)
Definition int_of_true_div (n d : Z) : Z :=
  if decide (2 * n < d) then 0
  else
    let e := if decide (n < d) then -1 else Z.log2 (n / d) in
    if decide (e <= 52)
    then round_half_even (n * 2 ^ (52 - e)) d / 2 ^ (52 - e)
    else round_half_even n (d * 2 ^ (e - 52)) * 2 ^ (e - 52).

(** [int(a * 100 / b)] for [b ≠ 0]: the product is exact, the division is
    the floating-point one, and [int] rounds towards zero. *)
Definition percent (a b : Z) : Z :=
  Z.sgn (a * 100) * Z.sgn b * int_of_true_div (Z.abs (a * 100)) (Z.abs b).

(** The three messages that [_file_transfer_task] builds. *)
Definition file_info_message (transfer_id : string) (info : pyval) : pyval :=
  PDict {[ "type" := PStr "file_info";
           "transfer_id" := PStr transfer_id;
           "info" := info ]}.
Definition file_data_message (transfer_id : string) (chunk : bytes) : pyval :=
  PDict {[ "type" := PStr "file_data";
           "transfer_id" := PStr transfer_id;
           "chunk" := PBytes chunk ]}.
Definition file_end_message (transfer_id : string) (md5 : pyval) : pyval :=
  PDict {[ "type" := PStr "file_end";
           "transfer_id" := PStr transfer_id;
           "md5" := md5 ]}.

(** The loop [while sent_size < file_size:] of [_file_transfer_task];
    [f] is the unread rest of the open file. Every turn that does not leave
    the loop reads at least one byte. *)
Fixpoint send_chunks (fuel : nat) (transfer_id : string) (file_info : pyval)
    (file_size : Z) (f : bytes) (sent_size : Z) : Py unit :=
  if decide (sent_size < file_size) then
    match fuel with
    | O => stuck
    | S fuel' =>
        n ← gets chunk_size;
        let '(chunk, f') := file_read f n in
        if decide (chunk = []) then mret tt
        else
          send_data (file_data_message transfer_id chunk);;
          let sent_size := sent_size + blen chunk in
          let progress := percent sent_size file_size in
          info ← py_getitem file_info "info";
          name ← py_getitem info "name";
          name ← as_str name;
          emit (FileProgress name progress);;
          send_chunks fuel' transfer_id file_info file_size f' sent_size
    end
  else mret tt.

Definition _file_transfer_task (transfer_id : string) : Py unit :=
  file_info ← pending_entry transfer_id;
  try_finally
    (try_except
       (info ← py_getitem file_info "info";
        send_data (file_info_message transfer_id info);;
        info ← py_getitem file_info "info";
        file_size ← py_getitem info "size";
        file_size ← as_int file_size;
        path ← py_getitem file_info "path";
        path ← as_str path;
        f ← open_rb path;
        send_chunks (S (length f)) transfer_id file_info file_size f 0;;
        info ← py_getitem file_info "info";
        md5 ← py_getitem info "md5";
        send_data (file_end_message transfer_id md5))
       (λ e, log_event "错误" "文件传输失败"))
    (del_pending transfer_id).

(** [QFileDialog.getSaveFileName]: the path chosen, [None] on cancel. *)
Definition save_dialog (name : string) : Py (option string) :=
  emit (SaveDialog name);;
  ds ← gets dialogs;
  match ds with
  | [] => mret None
  | answer :: rest => modify (set_dialogs rest);; mret answer
  end.

Definition _complete_file_transfer (transfer_id : string) : Py unit :=
  file_info ← pending_entry transfer_id;
  buffer ← py_getitem file_info "buffer";
  buffer ← as_bytes buffer;
  let received_md5 := md5_hexdigest buffer in
  info ← py_getitem file_info "info";
  md5 ← py_getitem info "md5";
  if negb (is_str md5 received_md5) then raise (Exception "文件校验失败")
  else
    info ← py_getitem file_info "info";
    name ← py_getitem info "name";
    name ← as_str name;
    answer ← save_dialog name;
    match answer with
    | Some file_path =>
        if bool_decide (file_path = ""%string) then mret tt
        else
          modify (λ w, set_files (<[file_path := buffer]> (files w)) w);;
          emit (FileWritten file_path buffer);;
          emit (FileProgress name 100)
    | None => mret tt
    end;;
    del_pending transfer_id.

(** [transfer_id in self.pending_files]; a dict cannot be hashed. *)
Definition is_pending (transfer_id : pyval) : Py bool :=
  match transfer_id with
  | PStr t => gets (λ w, bool_decide (is_Some (pending_files w !! t)))
  | PDict _ => raise TypeError
  | _ => mret false
  end.

Definition _handle_file_data (data : pyval) : Py unit :=
  transfer_id ← py_get data "transfer_id";
  known ← is_pending transfer_id;
  if negb known then mret tt
  else
    try_except
      (t ← as_str transfer_id;
       file_info ← pending_entry t;
       ty ← py_getitem data "type";
       if is_str ty "file_data" then
         buffer ← py_getitem file_info "buffer";
         buffer ← as_bytes buffer;
         chunk ← py_getitem data "chunk";
         chunk ← as_bytes chunk;
         let buffer := buffer ++ chunk in
         modify (λ w, set_pending_files
                        (alter (insert "buffer" (PBytes buffer)) t
                               (pending_files w)) w);;
         size ← py_getitem file_info "size";
         size ← as_int size;
         (if decide (size = 0) then raise ZeroDivisionError else mret tt);;
         let progress := percent (blen buffer) size in
         info ← py_getitem file_info "info";
         name ← py_getitem info "name";
         name ← as_str name;
         emit (FileProgress name progress)
       else if is_str ty "file_end" then _complete_file_transfer t
       else mret tt)
      (λ e, log_event "错误" "处理文件数据失败").

(** Modelled from the spec: [handle_received_data] is called by
    [receive_data] but is not defined in the source. Section 4.2: "on chat
    [...] forward to the Event Sink; on file_info/file_data/file_end, hand
    off to the File Transfer Engine; on anything else, ignore"; section 4.4:
    "file_info allocates an accumulation buffer keyed by transfer id and
    records expected size/digest". The entry has the keys that
    [_handle_file_data] and [_complete_file_transfer] read. *)
Definition handle_received_data (data : pyval) : Py unit :=
  ty ← py_get data "type";
  if is_str ty "chat" then _handle_chat_data data
  else if is_str ty "file_info" then
    transfer_id ← py_getitem data "transfer_id";
    t ← as_str transfer_id;
    info ← py_getitem data "info";
    size ← py_getitem info "size";
    modify (λ w, set_pending_files
                   (<[t := {[ "buffer" := PBytes []; "size" := size;
                              "info" := info ]}]> (pending_files w)) w)
  else if is_str ty "file_data" || is_str ty "file_end" then
    _handle_file_data data
  else mret tt.

(** One turn of the loop of [receive_data]. *)
Definition receive_data_turn : Py loop_ctl :=
  cs ← gets client_socket;
  match cs with
  | None => raise AttributeError
  | Some s =>
      size_data ← sock_recv s calcsize_I;
      if decide (size_data = []) then mret Break
      else
        data_size ← unpack_len size_data;
        '(received_data, _) ← recv_all s data_size;
        if decide (received_data = []) then mret Break
        else
          data ← pickle_loads received_data;
          handle_received_data data;;
          mret Continue
  end.

Fixpoint receive_data_loop (fuel : nat) : Py unit :=
  match fuel with
  | O => stuck
  | S fuel' =>
      connected ← gets is_connected;
      host ← gets is_host;
      if connected && negb host then
        ctl ← receive_data_turn;
        match ctl with
        | Break => mret tt
        | Continue => receive_data_loop fuel'
        end
      else mret tt
  end.

Definition receive_data : Py unit :=
  try_finally
    (try_except
       (cs ← gets client_socket;
        fuel ← match cs with
               | Some s => recv_fuel s
               | None => mret 1%nat
               end;
        receive_data_loop fuel)
       (λ e, emit (Log "print" "接收数据时出错")))
    disconnect_from_meeting.

End FileTransfer.

(** ** Vocabulary of the statements *)

Section Vocabulary.
Context `{Pickle}.

(** The serialized payload of [data] fits the 4-byte length prefix. *)
Definition fits (data : pyval) : Prop := blen (dumps data) < 2 ^ 32.

(** The message of type [ty] with exactly the further fields [fields]. *)
Definition message (ty : string) (fields : list (string * pyval)) : pyval :=
  PDict (list_to_map (("type"%string, PStr ty) :: fields)).

(** One message on the wire: the length prefix, then the payload. *)
Definition frame (data : pyval) : bytes :=
  match struct_pack_I (blen (dumps data)) with
  | Some size => size ++ dumps data
  | None => []
  end.

(** A file cut into pieces of [n] bytes, the last one possibly shorter. *)
Fixpoint chunks_of (fuel n : nat) (f : bytes) : list bytes :=
  match fuel with
  | O => []
  | S fuel' =>
      match f with
      | [] => []
      | _ => take n f :: chunks_of fuel' n (drop n f)
      end
  end.
Definition file_chunks (n : nat) (f : bytes) : list bytes :=
  chunks_of (length f) n f.


(** [v] is the handshake that [_wait_for_connection_confirm] accepts. *)
Definition confirms (v : pyval) : bool :=
  match v with
  | PDict d =>
      truthy v
      && is_str (default PNone (d !! "type")) "system"
      && is_str (default PNone (d !! "content")) "connection_confirmed"
  | _ => false
  end.

(** A connection attempt that meets [o] fails. *)
Definition attempt_fails (o : connect_outcome) : bool :=
  match o with
  | Refused => true
  | Connected None => true
  | Connected (Some v) => negb (confirms v)
  end.

(** What is observed of [n] failed attempts to join [ip]:[port], the last
    of which raised [e]: a pause of one second after every attempt but the
    last, and the error signal after the last. *)
Definition failed_join (ip : string) (port : Z) (n : nat) (e : exn)
    : list event :=
  concat (replicate (n - 1) [ConnectAttempt ip port; Slept 1])
  ++ [ConnectAttempt ip port; ConnectionErrorSignal e].

(** A method that writes on no socket. *)
Definition quiet {A} (m : Py A) : Prop :=
  ∀ w s, written (m w).2 s = written w s.

End Vocabulary.

Section Scenarios.
Context `{Pickle} `{Md5}.



(** [_handle_file_data] for each message of a list, in order. *)
Fixpoint handle_all (msgs : list pyval) : Py unit :=
  match msgs with
  | [] => mret tt
  | m :: rest => _handle_file_data m;; handle_all rest
  end.

(** The connection [c] is in the store and can take a whole frame. *)
Definition takes_frame (w : VideoConference) (c : sockid) : bool :=
  match sockets w !! c with
  | Some sk => can_send 2 sk
  | None => false
  end.

(** The arrivals that [accept_connections] registers in [w]: those whose
    handshake goes out whole. *)
Definition admitted (w : VideoConference)
    (arrivals : list (option (sockid * string))) : list sockid :=
  omap (λ a, match a with
             | Some (c, timestamp) =>
                 if takes_frame w c
                    && bool_decide (blen (dumps (welcome_data timestamp)) < 2 ^ 32)
                 then Some c else None
             | None => None
             end) arrivals.

(** What is still to be read from connection [c], 0 when there is none. *)
Definition pending_bytes (w : VideoConference) (c : sockid) : nat :=
  match sockets w !! c with
  | Some sk => bytes_available sk
  | None => 0%nat
  end.

(** The socket [sk] after [close()]. *)
Definition shut (sk : socket) : socket :=
  Socket (incoming sk) (outgoing sk) (sends_left sk) true.

(** Between [w] and [w'] nothing happened to the registry, to [is_host] or
    to any socket but [s], and on [s] nothing but reading. *)
Definition only_reads (s : sockid) (w w' : VideoConference) : Prop :=
  clients w' = clients w
  ∧ is_host w' = is_host w
  ∧ (∀ c, c ≠ s → sockets w' !! c = sockets w !! c)
  ∧ (closed <$> sockets w' !! s) = (closed <$> sockets w !! s)
  ∧ (pending_bytes w' s ≤ pending_bytes w s)%nat.

(** Between [w] and [w'] neither the transfers nor the files changed. *)
Definition keeps_transfers (w w' : VideoConference) : Prop :=
  pending_files w' = pending_files w ∧ files w' = files w.

(** The attempts to connect, the pauses and the error signals among [l]. *)
Definition retry_events (l : list event) : list event :=
  omap (λ e, match e with
             | ConnectAttempt _ _ | Slept _ | ConnectionErrorSignal _ => Some e
             | _ => None
             end) l.

(** The message that [send_chat_message] builds. *)
Definition chat_message (message timestamp : string) (host : bool) : pyval :=
  PDict {[ "type" := PStr "chat";
           "content" := PStr message;
           "timestamp" := PStr timestamp;
           "sender" := PStr (if host then "host" else "client") ]}.

(** As [only_reads], for a client: its connection and the flag
    [is_connected] stay as they are too. *)
Definition client_reads (s : sockid) (w w' : VideoConference) : Prop :=
  client_socket w' = client_socket w
  ∧ is_connected w' = is_connected w
  ∧ only_reads s w w'.

(** The method [m] never hangs, and the state it leaves is related by [P]
    to the state in which it starts. *)
Definition steady {A} (P : relation VideoConference) (m : Py A) : Prop :=
  ∀ w, (m w).1 ≠ Stuck ∧ P w (m w).2.

End Scenarios.

(** ** A concrete serializer and digest

    Stand-ins for [pickle] and [hashlib.md5] on which the definitions can be
    run: a tagged, length-prefixed encoding of [pyval] and a byte-sum
    checksum. *)

Module Sample.

Definition u32 (n : Z) : bytes :=
  [byte_of_Z (n / 2 ^ 24); byte_of_Z (n / 2 ^ 16); byte_of_Z (n / 2 ^ 8);
   byte_of_Z n].

Definition enc_str (s : string) : bytes :=
  let b := String.list_byte_of_string s in u32 (blen b) ++ b.

Fixpoint encode (v : pyval) : bytes :=
  match v with
  | PNone => [x4e]
  | PStr s => x53 :: enc_str s
  | PInt n => x49 :: (if decide (n < 0) then x2d else x2b) :: u32 (Z.abs n)
  | PBytes b => x42 :: u32 (blen b) ++ b
  | PDict d =>
      x44 :: u32 (Z.of_nat (size d))
          ++ concat ((λ kv, enc_str kv.1 ++ kv.2) <$> map_to_list (encode <$> d))
  end.

Definition get_u32 (b : bytes) : option (Z * bytes) :=
  n ← struct_unpack_I (take 4 b); Some (n, drop 4 b).

Definition get_block (b : bytes) : option (bytes * bytes) :=
  '(n, r) ← get_u32 b;
  if decide (Z.of_nat (length r) < n) then None
  else Some (take (Z.to_nat n) r, drop (Z.to_nat n) r).

Fixpoint parse (fuel : nat) (b : bytes) : option (pyval * bytes) :=
  match fuel with
  | O => None
  | S fuel' =>
      match b with
      | x4e :: r => Some (PNone, r)
      | x53 :: r => '(s, r') ← get_block r; Some (PStr (String.string_of_list_byte s), r')
      | x49 :: sg :: r =>
          '(n, r') ← get_u32 r;
          Some (PInt (if decide (sg = x2d) then - n else n), r')
      | x42 :: r => '(c, r') ← get_block r; Some (PBytes c, r')
      | x44 :: r =>
          '(n, r') ← get_u32 r;
          '(kvs, r'') ← parse_items fuel' (Z.to_nat n) r';
          Some (PDict (list_to_map kvs), r'')
      | _ => None
      end
  end
with parse_items (fuel : nat) (n : nat) (b : bytes)
    : option (list (string * pyval) * bytes) :=
  match fuel with
  | O => None
  | S fuel' =>
      match n with
      | O => Some ([], b)
      | S n' =>
          '(k, r) ← get_block b;
          '(v, r') ← parse fuel' r;
          '(kvs, r'') ← parse_items fuel' n' r';
          Some ((String.string_of_list_byte k, v) :: kvs, r'')
      end
  end.

Definition decode (b : bytes) : option pyval :=
  match parse (S (length b)) b with
  | Some (v, []) => Some v
  | _ => None
  end.

Definition pickle : Pickle := {| dumps := encode; loads := decode |}.

Definition md5 : Md5 := λ b,
  String.string_of_list_byte (u32 (foldr (λ x acc, Z_of_byte x + acc) 0 b)).

Definition chat_hi : pyval :=
  PDict {[ "type" := PStr "chat"; "content" := PStr "hi";
           "timestamp" := PStr "12:00:00"; "sender" := PStr "client" ]}.


Definition healthy : socket := Socket [] [] None false.

(** A message on the wire: length prefix, then payload. *)
Definition frame (v : pyval) : bytes := u32 (blen (encode v)) ++ encode v.

(** A host with one registered connection, socket 0. *)
Definition host0 : VideoConference :=
  Conf None true true [0%nat] 3 8192 ∅ {[ 0%nat := healthy ]} ∅ [] [] [].

(** A host with two registered connections: socket 0, on which [pieces]
    arrive, and socket 1. *)
Definition host_receiving (pieces : list bytes) : VideoConference :=
  Conf None true true [0%nat; 1%nat] 3 8192 ∅
       {[ 0%nat := Socket pieces [] None false; 1%nat := healthy ]}
       ∅ [] [] [].

(** A length prefix announcing 5 bytes, 2 bytes of payload, then the peer
    closes. *)
Definition truncated_stream : list bytes :=
  [[x00; x00; x00; x05; x61; x62]].

(** A three-byte file, the same with one bit flipped, and the messages of
    its transfer under the id "t1". *)
Definition abc : bytes := [x61; x62; x63].
Definition abb : bytes := [x61; x62; x62].

Definition info_abc : pydict :=
  {[ "name" := PStr "f.bin"; "size" := PInt 3; "md5" := PStr (md5 abc) ]}.

Definition file_data_t1 (chunk : bytes) : pydict :=
  {[ "type" := PStr "file_data"; "transfer_id" := PStr "t1";
     "chunk" := PBytes chunk ]}.

Definition file_end_t1 : pydict :=
  {[ "type" := PStr "file_end"; "transfer_id" := PStr "t1";
     "md5" := PStr (md5 abc) ]}.

(** The entry of a transfer being received, with what has arrived. *)
Definition receiving (buffer : bytes) : pydict :=
  {[ "buffer" := PBytes buffer; "size" := PInt 3; "info" := PDict info_abc ]}.

(** A client that has received the [file_info] of "t1" and nothing else. *)
Definition receiver : VideoConference :=
  Conf (Some 0%nat) true false [] 3 8192 {[ "t1"%string := receiving [] ]}
       {[ 0%nat := healthy ]} ∅ [] [Some "/tmp/f.bin"%string] [].

(** A client about to send the file "/tmp/f.bin" under the id "t1", as
    [send_file] leaves it: [content] is what the file holds and [size] the
    size recorded for it. *)
Definition sending_info (content : bytes) (size : Z) : pydict :=
  {[ "name" := PStr "f.bin"; "size" := PInt size;
     "md5" := PStr (md5 content) ]}.
Definition sending (content : bytes) (size : Z) : pydict :=
  {[ "path" := PStr "/tmp/f.bin"; "info" := PDict (sending_info content size);
     "status" := PStr "preparing" ]}.
Definition sender (content : bytes) (size : Z) : VideoConference :=
  Conf (Some 0%nat) true false [] 3 8192
       {[ "t1"%string := sending content size ]}
       {[ 0%nat := healthy ]} {[ "/tmp/f.bin"%string := content ]} [] [] [].

(** A socket that was closed before the broadcast. *)
Definition pre_closed : socket := Socket [] [] None true.

(** A host with three registered connections of which socket 1 is closed. *)
Definition host3 : VideoConference :=
  Conf None true true [0%nat; 1%nat; 2%nat] 3 8192 ∅
       {[ 0%nat := healthy; 1%nat := pre_closed; 2%nat := healthy ]}
       ∅ [] [] [].

(** A host to which the connection 5 has just been accepted. *)
Definition host_accepting : VideoConference :=
  Conf None true true [0%nat] 3 8192 ∅
       {[ 0%nat := healthy; 5%nat := healthy ]} ∅ [] [] [].

(** A fresh object in an environment where the first attempt to connect is
    refused, the second meets a host that says nothing and the third a host
    that sends a chat message instead of the handshake. *)
Definition nobody_home : VideoConference :=
  init_attributes
    (Conf None false false [] 0 0 ∅ ∅ ∅
          [Refused; Connected None; Connected (Some chat_hi)] [] []).

(** A fresh object in an environment where the first attempt to connect is
    refused, the second meets a host that says nothing and the third a host
    of this program. *)
Definition host_answers_third : VideoConference :=
  init_attributes
    (Conf None false false [] 0 0 ∅ ∅ ∅
          [Refused; Connected None;
           Connected (Some (welcome_data "12:00:00"))] [] []).

(** A file of two chunks of 8192 bytes and one of 100 bytes. *)
Definition three_chunks : bytes :=
  replicate (Z.to_nat 16384) x61 ++ replicate (Z.to_nat 100) x62.

(** A client that has received the [file_info] of a transfer "t1" of
    [content] and nothing else. *)
Definition receives (content : bytes) : VideoConference :=
  Conf (Some 0%nat) true false [] 3 8192
       {[ "t1"%string :=
            {[ "buffer" := PBytes []; "size" := PInt (blen content);
               "info" := PDict (sending_info content (blen content)) ]} ]}
       {[ 0%nat := healthy ]} ∅ [] [Some "/tmp/f.bin"%string] [].

(** A client whose connection, socket 0, will receive [pieces]. *)
Definition peer (pieces : list bytes) : VideoConference :=
  Conf (Some 0%nat) true false [] 3 8192 ∅
       {[ 0%nat := Socket pieces [] None false ]} ∅ [] [] [].

End Sample.


(** * Properties *)

(** ** [struct] *)

Lemma Z_of_byte_range b : 0 <= Z_of_byte b < 256.
Proof.
  unfold Z_of_byte. pose proof (Byte.to_N_bounded b). lia.
Qed.

Lemma Z_of_byte_of_Z z : Z_of_byte (byte_of_Z z) = z mod 256.
Proof.
  unfold Z_of_byte, byte_of_Z.
  assert (Hr : 0 <= z mod 256 < 256) by (apply Z.mod_pos_bound; lia).
  destruct (Byte.of_N (Z.to_N (z mod 256))) as [b|] eqn:E.
  - apply Byte.to_of_N in E. rewrite E. lia.
  - apply Byte.of_N_None_iff in E. lia.
Qed.


Lemma struct_pack_I_Some n : 0 <= n < 2 ^ 32 → is_Some (struct_pack_I n).
Proof. intros. unfold struct_pack_I. case_decide; [eauto | lia]. Qed.

Lemma struct_pack_I_None n : 2 ^ 32 <= n → struct_pack_I n = None.
Proof. intros. unfold struct_pack_I. case_decide; [lia | done]. Qed.

Lemma struct_unpack_pack n size :
  struct_pack_I n = Some size → struct_unpack_I size = Some n.
Proof.
  unfold struct_pack_I. case_decide as Hn; [|done]. intros [= <-].
  unfold struct_unpack_I. rewrite !Z_of_byte_of_Z. f_equal.
  change (2 ^ 24) with 16777216. change (2 ^ 16) with 65536.
  change (2 ^ 8) with 256. change (2 ^ 32) with 4294967296 in Hn.
  Z.div_mod_to_equations. lia.
Qed.

(** ** Sockets *)

Lemma sockets_with_socket s sk w : sockets (with_socket s sk w) !! s = Some sk.
Proof. unfold with_socket. simpl. apply lookup_insert_eq. Qed.

Lemma sockets_with_socket_ne s s' sk w :
  s ≠ s' → sockets (with_socket s sk w) !! s' = sockets w !! s'.
Proof. intros. unfold with_socket. simpl. by apply lookup_insert_ne. Qed.

Lemma with_socket_twice s a b w :
  with_socket s a (with_socket s b w) = with_socket s a w.
Proof. unfold with_socket, set_sockets. simpl. by rewrite insert_insert_eq. Qed.

Lemma take_incoming_spec n segs :
  (0 < n)%nat →
  concat segs = (take_incoming n segs).1 ++ concat (take_incoming n segs).2
  ∧ (length (take_incoming n segs).1 ≤ n)%nat
  ∧ ((take_incoming n segs).1 = [] → concat segs = []).
Proof.
  intros Hn. induction segs as [|seg segs IH]; simpl.
  - split_and!; [done|lia|done].
  - destruct seg as [|b seg]; [done|].
    cbn [take_incoming fst snd]. rewrite !concat_cons.
    split_and!.
    + by rewrite app_assoc, take_drop.
    + rewrite length_take. lia.
    + destruct n; [lia | done].
Qed.

Lemma sock_recv_open s n w sk :
  sockets w !! s = Some sk → closed sk = false →
  sock_recv s n w =
    (Done (take_incoming (Z.to_nat n) (incoming sk)).1,
     with_socket s (Socket (take_incoming (Z.to_nat n) (incoming sk)).2
                           (outgoing sk) (sends_left sk) false) w).
Proof.
  intros Hs Hc. unfold sock_recv. rewrite Hs, Hc.
  by destruct (take_incoming _ _).
Qed.

Lemma sock_send_open s data w sk :
  sockets w !! s = Some sk → can_send 1 sk = true →
  sock_send s data w =
    (Done tt,
     with_socket s (Socket (incoming sk) (outgoing sk ++ data)
                           (Nat.pred <$> sends_left sk) false) w).
Proof.
  intros Hs Hc. unfold sock_send. rewrite Hs.
  unfold can_send in Hc. apply andb_prop in Hc as [Hcl Hq].
  apply negb_true_iff in Hcl. rewrite Hcl.
  destruct (sends_left sk) as [[|q]|]; done.
Qed.

Lemma sock_send_broken s data w sk :
  sockets w !! s = Some sk → can_send 1 sk = false →
  sock_send s data w = (Raised OSError, w).
Proof.
  intros Hs Hc. unfold sock_send. rewrite Hs.
  unfold can_send in Hc. destruct (closed sk); [done|]. simpl in Hc.
  destruct (sends_left sk) as [[|q]|]; try done.
  all: apply bool_decide_eq_false in Hc; lia.
Qed.

Lemma can_send_after n sk data :
  can_send (S n) sk = true →
  can_send n (Socket (incoming sk) (outgoing sk ++ data)
                     (Nat.pred <$> sends_left sk) false) = true.
Proof.
  unfold can_send. simpl. intros [_ Hq]%andb_prop.
  destruct (sends_left sk) as [q|]; [|done]. simpl.
  apply bool_decide_eq_true in Hq. apply bool_decide_eq_true. lia.
Qed.

Lemma can_send_weaken n m sk :
  (m ≤ n)%nat → can_send n sk = true → can_send m sk = true.
Proof.
  unfold can_send. intros Hle [Hc Hq]%andb_prop. rewrite Hc. simpl.
  destruct (sends_left sk) as [q|]; [|done].
  apply bool_decide_eq_true in Hq. apply bool_decide_eq_true. lia.
Qed.

Lemma with_socket_same s sk w :
  sockets w !! s = Some sk → with_socket s sk w = w.
Proof.
  intros Hs. unfold with_socket. rewrite insert_id by done. by destruct w.
Qed.


(** ** The message framer *)

Section Framer.
Context `{Pickle}.


Lemma send_frame_ok s size payload w sk :
  sockets w !! s = Some sk → can_send 2 sk = true →
  (sock_send s size;; sock_send s payload) w =
    (Done tt,
     with_socket s (Socket (incoming sk) (outgoing sk ++ size ++ payload)
                           (Nat.pred <$> (Nat.pred <$> sends_left sk)) false) w).
Proof.
  intros Hs Hc. unfold mbind, Py_bind.
  rewrite (sock_send_open _ _ _ _ Hs)
    by (apply (can_send_weaken 2); [lia | done]).
  erewrite sock_send_open;
    [| apply sockets_with_socket | by apply (can_send_after 1)].
  simpl. by rewrite with_socket_twice, <- app_assoc.
Qed.




(** When the peer closes before the advertised length has arrived, the
    payload loop returns the part that did arrive, flagged as interrupted. *)
Lemma recv_payload_truncated fuel s data_size received tail w sk :
  sockets w !! s = Some sk → closed sk = false →
  concat (incoming sk) = tail →
  blen (received ++ tail) < data_size →
  (length tail < fuel)%nat →
  ∃ segs', concat segs' = [] ∧
    recv_payload fuel s data_size received w =
      (Done (received ++ tail, true),
       with_socket s (Socket segs' (outgoing sk) (sends_left sk) false) w).
Proof.
  revert received tail w sk.
  induction fuel as [|fuel IH]; intros received tail w sk Hs Hc Hin Hlen Hfuel;
    [lia|].
  cbn [recv_payload]. rewrite decide_True
    by (unfold blen in *; rewrite length_app in Hlen; lia).
  unfold mbind, Py_bind at 1. rewrite (sock_recv_open _ _ _ _ Hs Hc).
  set (n := Z.to_nat (Z.min (data_size - blen received) 8192)).
  assert (Hn : (0 < n)%nat)
    by (unfold n, blen in *; rewrite length_app in Hlen; lia).
  destruct (take_incoming_spec n (incoming sk)) as (Hcat & _ & Hnil); [lia|].
  destruct (take_incoming n (incoming sk)) as [chunk segs1]; simpl in *.
  rewrite Hin in Hcat, Hnil.
  case_decide as Hchunk.
  - subst chunk. rewrite (Hnil eq_refl) in Hcat |- *. simpl in Hcat.
    exists segs1. split; [done|]. by rewrite app_nil_r.
  - set (sk1 := Socket segs1 (outgoing sk) (sends_left sk) false).
    destruct (IH (received ++ chunk) (concat segs1)
                 (with_socket s sk1 w) sk1) as (segs' & Hrest & Hrun).
    + apply sockets_with_socket.
    + done.
    + done.
    + by rewrite <- app_assoc, <- Hcat.
    + rewrite Hcat, length_app in Hfuel.
      assert (0 < length chunk)%nat by (destruct chunk; [done | simpl; lia]).
      lia.
    + exists segs'. split; [done|]. rewrite Hrun. simpl.
      by rewrite with_socket_twice, <- app_assoc, <- Hcat.
Qed.

(** In [handle_client] the empty chunk only leaves the inner loop: a
    non-empty part of a payload that the peer cut short goes to
    [pickle.loads]. *)
Lemma handle_client_turn_truncated s w rk size data_size part pieces :
  sockets w !! s = Some rk → closed rk = false →
  incoming rk = size :: pieces →
  struct_unpack_I size = Some data_size →
  concat pieces = part → part ≠ [] → blen part < data_size →
  ∃ w', handle_client_turn s w = (Done Continue, w')
        ∧ Unpickle part ∈ events w'.
Proof.
  intros Hs Hc Hin Hun Hcat Hpart Hlen.
  assert (Hsz : length size = 4%nat).
  { unfold struct_unpack_I in Hun.
    by destruct size as [|? [|? [|? [|? [|? ?]]]]]. }
  unfold handle_client_turn, try_except at 1.
  unfold mbind at 1, Py_bind at 1.
  rewrite (sock_recv_open _ _ _ _ Hs Hc), Hin.
  assert (Htake : take_incoming (Z.to_nat calcsize_I) (size :: pieces)
                  = (size, [] :: pieces)).
  { destruct size as [|b size]; [done|]. cbn [take_incoming].
    change (Z.to_nat calcsize_I) with 4%nat.
    by rewrite take_ge, drop_ge by lia. }
  rewrite Htake. cbn [fst snd].
  rewrite decide_False by (intros ->; done).
  unfold unpack_len. rewrite Hun.
  unfold mbind at 1, Py_bind at 1. unfold mret at 1, Py_ret at 1.
  set (rk1 := Socket ([] :: pieces) (outgoing rk) (sends_left rk) false).
  unfold recv_all, recv_fuel, gets.
  unfold mbind at 1, Py_bind at 1. unfold mbind at 1, Py_bind at 1.
  rewrite sockets_with_socket.
  destruct (recv_payload_truncated (S (bytes_available rk1)) s data_size []
              part (with_socket s rk1 w) rk1) as (segs' & Hrest & Hrun).
  - apply sockets_with_socket.
  - done.
  - done.
  - done.
  - unfold bytes_available. simpl. rewrite Hcat. lia.
  - rewrite Hrun. simpl. rewrite with_socket_twice.
    rewrite decide_False by done.
    unfold log_event, emit, modify, try_except, handle_client_data,
      pickle_loads, emit, modify.
    unfold mbind, Py_bind. simpl.
    destruct (loads part) as [v|]; [destruct v|]; simpl;
      unfold py_get, py_getitem, as_str, raise, mret, Py_ret; simpl;
      repeat (case_match; simpl in *; simplify_eq);
      (eexists; split; [reflexivity|]); simpl.
    all: rewrite ?elem_of_app, ?elem_of_cons; tauto.
Qed.


End Framer.

(** ** Running a method step by step *)

Lemma bind_done {A B} (m : Py A) (f : A → Py B) w a w' :
  m w = (Done a, w') → (m ≫= f) w = f a w'.
Proof. intros Hm. unfold mbind, Py_bind. by rewrite Hm. Qed.

Lemma bind_raised {A B} (m : Py A) (f : A → Py B) w e w' :
  m w = (Raised e, w') → (m ≫= f) w = (Raised e, w').
Proof. intros Hm. unfold mbind, Py_bind. by rewrite Hm. Qed.

Lemma try_except_done {A} (m : Py A) h w a w' :
  m w = (Done a, w') → try_except m h w = (Done a, w').
Proof. intros Hm. unfold try_except. by rewrite Hm. Qed.

Lemma try_except_raised {A} (m : Py A) h w e w' :
  m w = (Raised e, w') → try_except m h w = h e w'.
Proof. intros Hm. unfold try_except. by rewrite Hm. Qed.

Lemma try_finally_done {A} (m : Py A) f w a w' w'' :
  m w = (Done a, w') → f w' = (Done tt, w'') →
  try_finally m f w = (Done a, w'').
Proof. intros Hm Hf. unfold try_finally. by rewrite Hm, Hf. Qed.

(** ** The file transfer engine *)

Ltac py_run :=
  unfold mbind, mret, Py_bind, Py_ret, raise, gets, log_event, emit, modify,
    try_except, try_finally, try_pass; simpl.

(** *** Chunks and progress values *)










(** From 2^54 bytes on it need not be: with one byte still to go the
    quotient is already rounded to 100. *)
Lemma percent_early : percent (2 ^ 54) (2 ^ 54 + 1) = 100.
Proof. vm_compute. reflexivity. Qed.




Ltac py_step :=
  erewrite bind_done by (first [reflexivity | done]); cbn beta iota.

Section Transfer.
Context `{Pickle} `{Md5}.

(** C9: a [file_data] or [file_end] message whose [transfer_id] is not a key
    of [pending_files] is ignored: [_handle_file_data] returns normally and
    leaves the whole state as it was, so no progress is reported, no
    transfer is added or removed and no buffer changes. *)
Theorem unknown_transfer_ignored (d : pydict) (t : string)
    (w : VideoConference) :
  d !! "transfer_id" = Some (PStr t) →
  pending_files w !! t = None →
  _handle_file_data (PDict d) w = (Done tt, w).
Proof.
  intros Hid Hnone. unfold _handle_file_data, py_get, is_pending.
  py_run. rewrite Hid. simpl. by rewrite Hnone.
Qed.

(** On a digest mismatch [_complete_file_transfer] raises before it reaches
    [del self.pending_files[transfer_id]]; [_handle_file_data] logs the
    exception, and the entry with its buffer stays. *)
Lemma digest_mismatch_keeps_entry (d entry info : pydict) (t : string)
    (buffer : bytes) (md5 : pyval) (w : VideoConference) :
  d !! "transfer_id" = Some (PStr t) →
  d !! "type" = Some (PStr "file_end") →
  pending_files w !! t = Some entry →
  entry !! "buffer" = Some (PBytes buffer) →
  entry !! "info" = Some (PDict info) →
  info !! "md5" = Some md5 →
  md5 ≠ PStr (md5_hexdigest buffer) →
  _complete_file_transfer t w = (Raised (Exception "文件校验失败"), w)
  ∧ _handle_file_data (PDict d) w
    = (Done tt, set_events (events w ++ [Log "错误" "处理文件数据失败"]) w).
Proof.
  intros Hid Hty Hp Hb Hi Hm Hne.
  assert (Hstr : is_str md5 (md5_hexdigest buffer) = false).
  { destruct md5; try done. simpl. apply bool_decide_eq_false. congruence. }
  assert (Hc : _complete_file_transfer t w
               = (Raised (Exception "文件校验失败"), w)).
  { unfold _complete_file_transfer, pending_entry, py_getitem, as_bytes.
    py_run. rewrite Hp. simpl. rewrite Hb. simpl. rewrite Hi. simpl.
    rewrite Hm. simpl. by rewrite Hstr. }
  split; [done|].
  unfold _handle_file_data, py_get, is_pending. py_run.
  rewrite Hid. simpl. rewrite Hp. simpl.
  unfold pending_entry, py_getitem. py_run. rewrite Hp, Hty. simpl.
  by rewrite Hc.
Qed.

(** *** Sending a file *)

Lemma send_data_ok data w s sk :
  client_socket w = Some s → sockets w !! s = Some sk →
  closed sk = false → sends_left sk = None → fits data →
  send_data data w =
    (Done tt,
     with_socket s (Socket (incoming sk) (outgoing sk ++ frame data) None false)
                 w).
Proof.
  intros Hcs Hs Hc Hl Hfit. unfold send_data.
  erewrite bind_done by (unfold gets; by rewrite Hcs).
  destruct (struct_pack_I_Some (blen (dumps data))) as [size Hp];
    [unfold fits, blen in *; lia|].
  unfold pack_len, frame. rewrite Hp.
  erewrite bind_done by reflexivity.
  rewrite (send_frame_ok _ _ _ _ _ Hs) by (unfold can_send; by rewrite Hc, Hl).
  by rewrite Hl.
Qed.





Lemma pending_entry_ok t entry w :
  pending_files w !! t = Some entry →
  pending_entry t w = (Done (PDict entry), w).
Proof. intros Hp. unfold pending_entry. py_run. by rewrite Hp. Qed.

Lemma open_rb_ok path f w :
  files w !! path = Some f → open_rb path w = (Done f, w).
Proof. intros Hf. unfold open_rb. py_run. by rewrite Hf. Qed.

Lemma del_pending_ok t entry w :
  pending_files w !! t = Some entry →
  del_pending t w = (Done tt, set_pending_files (delete t (pending_files w)) w).
Proof. intros Hp. unfold del_pending. py_run. by rewrite Hp. Qed.

(** C10: for a transfer whose recorded size is 0, [_file_transfer_task]
    sends [file_info] and then [file_end] and nothing between them, reports
    no progress at all, and removes the entry from [pending_files]. *)
Theorem empty_file_transfer t entry info path f md5 s sk w :
  pending_files w !! t = Some entry →
  entry !! "info" = Some (PDict info) →
  entry !! "path" = Some (PStr path) →
  info !! "size" = Some (PInt 0) →
  info !! "md5" = Some md5 →
  files w !! path = Some f →
  client_socket w = Some s → sockets w !! s = Some sk →
  closed sk = false → sends_left sk = None →
  let file_info :=
    message "file_info" [("transfer_id"%string, PStr t);
                         ("info"%string, PDict info)] in
  let file_end :=
    message "file_end" [("transfer_id"%string, PStr t);
                        ("md5"%string, md5)] in
  fits file_info → fits file_end →
  ∃ w', _file_transfer_task t w = (Done tt, w')
    ∧ written w' s = Some (outgoing sk ++ frame file_info ++ frame file_end)
    ∧ events w' = events w
    ∧ pending_files w' = delete t (pending_files w).
Proof.
  intros Hp Hinfo Hpath Hsize Hmd5 Hf Hcs Hs Hc Hl file_info file_end.
  change file_info with (file_info_message t (PDict info)).
  change file_end with (file_end_message t md5).
  clear file_info file_end. intros Hfit1 Hfit2.
  unfold _file_transfer_task.
  erewrite bind_done by (by apply pending_entry_ok).
  set (sk1 := Socket (incoming sk)
                     (outgoing sk ++ frame (file_info_message t (PDict info)))
                     None false).
  eexists. split.
  - eapply try_finally_done.
    + apply try_except_done.
      unfold py_getitem, as_int, as_str. rewrite Hinfo, Hpath.
      py_step.
      erewrite bind_done by (by apply (send_data_ok _ _ s sk)).
      py_step. rewrite Hsize. py_step. py_step. py_step. py_step.
      erewrite bind_done by (apply open_rb_ok; exact Hf).
      cbn [send_chunks]. rewrite decide_False by lia.
      py_step. py_step. rewrite Hmd5. py_step.
      apply (send_data_ok _ _ s sk1); try done.
      apply sockets_with_socket.
    + by apply (del_pending_ok _ entry).
  - unfold written. simpl. rewrite insert_insert_eq, lookup_insert_eq. simpl.
    by rewrite <- app_assoc.
Qed.



End Transfer.

(** ** Joining a meeting *)

Section Joining.
Context `{Pickle}.

Lemma wait_for_connection_confirm_value v w :
  _wait_for_connection_confirm (mret v) w = (Done (confirms v), w).
Proof.
  unfold _wait_for_connection_confirm, confirms, py_get. py_run.
  destruct v as [|str|n|b|d]; simpl; try done;
    repeat (case_match; simpl in *; simplify_eq; try done).
Qed.

(** An attempt that fails raises, having recorded the attempt and nothing
    else, and leaves the client unconnected. *)
Lemma connect_to_server_fails ip port w :
  Forall (λ o, attempt_fails o = true) (network w) →
  ∃ e w1,
    _connect_to_server ip port w = (Raised e, w1)
    ∧ events w1 = events w ++ [ConnectAttempt ip port]
    ∧ Forall (λ o, attempt_fails o = true) (network w1)
    ∧ retry_count w1 = retry_count w
    ∧ is_connected w1 = is_connected w.
Proof.
  intros Hnet. unfold _connect_to_server, new_socket, next_outcome.
  py_run. destruct (network w) as [|o rest] eqn:Hn; simpl.
  - eexists _, _. split; [reflexivity|]. simpl. by rewrite Hn.
  - apply Forall_cons in Hnet as [Ho Hrest].
    destruct o as [|[v|]]; simpl in *.
    + eexists _, _. split; [reflexivity|]. done.
    + pose proof (wait_for_connection_confirm_value v) as Hw.
      unfold mret, Py_ret in Hw. rewrite Hw.
      apply negb_true_iff in Ho. rewrite Ho.
      eexists _, _. split; [reflexivity|]. done.
    + eexists _, _. split; [reflexivity|]. done.
Qed.

Lemma join_attempts_all_fail ip port m k w :
  Forall (λ o, attempt_fails o = true) (network w) →
  retry_count w = Z.of_nat (k + S m) →
  ∃ e w',
    join_attempts (Z.of_nat <$> seq k (S m)) ip port w = (Done tt, w')
    ∧ events w' = events w ++ failed_join ip port (S m) e
    ∧ is_connected w' = is_connected w.
Proof.
  revert k w. induction m as [|m IH]; intros k w Hnet Hrc.
  - destruct (connect_to_server_fails ip port w Hnet)
      as (e & w1 & Hrun & Hev & Hnet1 & Hrc1 & Hc1).
    exists e. cbn [seq fmap list_fmap join_attempts].
    erewrite bind_done.
    2:{ erewrite try_except_raised
          by (erewrite bind_raised by exact Hrun; reflexivity).
        erewrite bind_done by reflexivity. cbn beta.
        rewrite decide_True by (rewrite Hrc1, Hrc; lia).
        erewrite bind_done by reflexivity. reflexivity. }
    eexists. split; [reflexivity|]. simpl. rewrite Hev.
    split; [by rewrite <- app_assoc | done].
  - destruct (connect_to_server_fails ip port w Hnet)
      as (e1 & w1 & Hrun & Hev & Hnet1 & Hrc1 & Hc1).
    destruct (IH (S k) (set_events (events w1 ++ [Slept 1]) w1))
      as (e & w' & Hrest & Hev' & Hc'); [done | simpl; lia |].
    exists e, w'. 
    change (Z.of_nat <$> seq k (S (S m)))
      with (Z.of_nat k :: (Z.of_nat <$> seq (S k) (S m))).
    cbn [join_attempts].
    erewrite bind_done.
    2:{ erewrite try_except_raised
          by (erewrite bind_raised by exact Hrun; reflexivity).
        erewrite bind_done by reflexivity. cbn beta.
        rewrite decide_False by (rewrite Hrc1, Hrc; lia).
        erewrite bind_done by reflexivity. reflexivity. }
    cbn iota. split; [exact Hrest|]. rewrite Hev', Hc'. simpl.
    rewrite Hev. split; [|done].
    unfold failed_join. replace (S (S m) - 1)%nat with (S (S m - 1)) by lia.
    simpl. by rewrite <- !app_assoc.
Qed.

(** C7: when every attempt to connect fails, [join_meeting] makes exactly
    [retry_count] attempts (3 as [_init_attributes] sets it), sleeps one
    second between consecutive attempts, and after the last one does not
    try again but emits [connection_error] and returns, unconnected. *)
Theorem join_retries_then_fails ip port w :
  is_connected w = false →
  0 < retry_count w →
  Forall (λ o, attempt_fails o = true) (network w) →
  ∃ e w',
    join_meeting ip (Some port) w = (Done tt, w')
    ∧ events w' = events w
                  ++ failed_join ip port (Z.to_nat (retry_count w)) e
    ∧ is_connected w' = false.
Proof.
  intros Hc Hrc Hnet.
  destruct (Z.to_nat (retry_count w)) as [|m] eqn:Hn; [lia|].
  destruct (join_attempts_all_fail ip port m 0 w Hnet)
    as (e & w' & Hrun & Hev & Hc'); [simpl; lia|].
  exists e, w'. unfold join_meeting.
  erewrite bind_done by (unfold gets; reflexivity). rewrite Hc.
  cbn [negb]. erewrite bind_done by (unfold gets; reflexivity).
  unfold py_range. rewrite Hn, Hrun. by rewrite Hev, Hc', Hc.
Qed.

End Joining.

(** ** The host: accepting and broadcasting *)

Section Host.
Context `{Pickle}.

Lemma sock_close_open c w sk :
  sockets w !! c = Some sk →
  sock_close c w =
    (Done tt,
     with_socket c (Socket (incoming sk) (outgoing sk) (sends_left sk) true) w).
Proof. intros Hs. unfold sock_close. by rewrite Hs. Qed.

(** A frame that cannot be sent whole raises, after the length prefix went
    out or before; nothing but the socket itself is touched. *)
Lemma send_frame_fails c size payload w sk :
  sockets w !! c = Some sk → can_send 2 sk = false →
  ∃ sk1, (sock_send c size;; sock_send c payload) w
         = (Raised OSError, with_socket c sk1 w).
Proof.
  intros Hs Hc. destruct (can_send 1 sk) eqn:H1.
  - erewrite bind_done by (by apply sock_send_open).
    eexists. erewrite sock_send_broken; [ | apply sockets_with_socket | ].
    + reflexivity.
    + unfold can_send in *. simpl.
      destruct (closed sk); [done|]. simpl in *.
      destruct (sends_left sk) as [[|[|q]]|]; simpl in *; try done.
  - exists sk. rewrite (bind_raised _ _ _ OSError w).
    + by rewrite with_socket_same.
    + by apply (sock_send_broken _ _ _ sk).
Qed.

Lemma bind_assoc {A B C} (m : Py A) (f : A → Py B) (g : B → Py C) w :
  ((m ≫= f) ≫= g) w = (m ≫= λ a, f a ≫= g) w.
Proof. unfold mbind, Py_bind. by destruct (m w) as [[]]. Qed.

(** C6: for a connection [client_socket] returned by [accept()], the host
    first writes the framed [system] message whose content is
    [connection_confirmed]. If the whole frame went out, the connection is
    appended to [clients] and a handler thread is started for it, the frame
    being all that was written on it. If not, the socket is closed, [clients]
    is unchanged and no thread is started. Either way the accept loop goes on
    with the next connection. *)
Theorem handshake_then_register client_socket timestamp rest w sk :
  sockets w !! client_socket = Some sk →
  is_host w = true →
  let handshake :=
    message "system" [("content"%string, PStr "connection_confirmed");
                      ("timestamp"%string, PStr timestamp)] in
  ∃ w',
    accept_one client_socket timestamp w = (Done tt, w')
    ∧ accept_connections (Some (client_socket, timestamp) :: rest) w
      = accept_connections rest w'
    ∧ (can_send 2 sk && bool_decide (blen (dumps handshake) < 2 ^ 32) = true →
       written w' client_socket = Some (outgoing sk ++ frame handshake)
       ∧ (closed <$> sockets w' !! client_socket) = Some false
       ∧ clients w' = clients w ++ [client_socket]
       ∧ events w' = events w
                     ++ [Log "连接" "已发送连接确认";
                         ThreadStarted "handle_client" (Some client_socket)])
    ∧ (can_send 2 sk && bool_decide (blen (dumps handshake) < 2 ^ 32) = false →
       (closed <$> sockets w' !! client_socket) = Some true
       ∧ clients w' = clients w
       ∧ events w' = events w ++ [Log "错误" "发送连接确认失败"]).
Proof.
  intros Hs Hhost handshake.
  change handshake with (welcome_data timestamp). clear handshake.
  assert (Hloop : ∀ w', accept_one client_socket timestamp w = (Done tt, w') →
            accept_connections (Some (client_socket, timestamp) :: rest) w
            = accept_connections rest w').
  { intros w' Hrun. cbn [accept_connections].
    erewrite bind_done by (unfold gets; reflexivity). rewrite Hhost.
    by erewrite bind_done by exact Hrun. }
  set (payload := dumps (welcome_data timestamp)).
  destruct (bool_decide (blen payload < 2 ^ 32)) eqn:Hfit.
  - apply bool_decide_eq_true in Hfit.
    destruct (struct_pack_I_Some (blen payload)) as [size Hp];
      [unfold blen in *; lia|].
    assert (Hbody : ∀ k : Py unit,
              (size ← pack_len payload;
               sock_send client_socket size;;
               sock_send client_socket payload;; k) w
              = ((sock_send client_socket size;;
                  sock_send client_socket payload) ≫= λ _, k) w).
    { intros k. unfold pack_len. rewrite Hp. py_step. by rewrite bind_assoc. }
    destruct (can_send 2 sk) eqn:Hcan.
    + assert (Hrun : accept_one client_socket timestamp w
                = (Done tt,
                   set_events
                     (events w
                      ++ [Log "连接" "已发送连接确认";
                          ThreadStarted "handle_client" (Some client_socket)])
                     (set_clients (clients w ++ [client_socket])
                        (with_socket client_socket
                           (Socket (incoming sk)
                                   (outgoing sk ++ size ++ payload)
                                   (Nat.pred <$> (Nat.pred <$> sends_left sk))
                                   false) w)))).
      { unfold accept_one. apply try_except_done. fold payload.
        rewrite Hbody.
        erewrite bind_done by (by apply send_frame_ok).
        py_run. unfold with_socket, set_events, set_clients, set_sockets.
        simpl. by rewrite <- app_assoc. }
      eexists. split_and!; [exact Hrun | by apply Hloop | | done].
      intros _. unfold written, frame. fold payload. rewrite Hp. simpl.
      by rewrite lookup_insert_eq.
    + destruct (send_frame_fails client_socket size payload w sk Hs Hcan)
        as [sk1 Hfail].
      assert (Hrun : accept_one client_socket timestamp w
                = (Done tt,
                   with_socket client_socket
                     (Socket (incoming sk1) (outgoing sk1) (sends_left sk1) true)
                     (set_events (events w ++ [Log "错误" "发送连接确认失败"])
                        (with_socket client_socket sk1 w)))).
      { unfold accept_one. fold payload. erewrite try_except_raised.
        2:{ rewrite Hbody. by erewrite bind_raised by exact Hfail. }
        unfold log_event. erewrite bind_done by reflexivity.
        unfold try_pass. apply try_except_done.
        apply sock_close_open. simpl. apply lookup_insert_eq. }
      eexists. split_and!; [exact Hrun | by apply Hloop | done |].
      intros _. simpl. by rewrite lookup_insert_eq.
  - apply bool_decide_eq_false in Hfit.
    assert (Hrun : accept_one client_socket timestamp w
              = (Done tt,
                 with_socket client_socket
                   (Socket (incoming sk) (outgoing sk) (sends_left sk) true)
                   (set_events (events w ++ [Log "错误" "发送连接确认失败"]) w))).
    { unfold accept_one. fold payload. erewrite try_except_raised.
      2:{ unfold pack_len.
          rewrite struct_pack_I_None by (unfold blen in *; lia).
          reflexivity. }
      unfold log_event. erewrite bind_done by reflexivity.
      unfold try_pass. apply try_except_done.
      by apply sock_close_open. }
    eexists. split_and!; [exact Hrun | by apply Hloop | | ].
    + by rewrite andb_false_r.
    + intros _. simpl. by rewrite lookup_insert_eq.
Qed.

(** *** The handler of a connection sends nothing *)

Lemma quiet_ret {A} (a : A) : quiet (mret a).
Proof. by intros w s. Qed.

Lemma quiet_raise {A} e : quiet (@raise A e).
Proof. by intros w s. Qed.

Lemma quiet_stuck {A} : quiet (@stuck A).
Proof. by intros w s. Qed.

Lemma quiet_gets {A} (f : VideoConference → A) : quiet (gets f).
Proof. by intros w s. Qed.

Lemma quiet_modify f : (∀ w, sockets (f w) = sockets w) → quiet (modify f).
Proof. intros Hf w s. unfold written. simpl. by rewrite Hf. Qed.

Lemma quiet_emit e : quiet (emit e).
Proof. by apply quiet_modify. Qed.




Lemma quiet_sock_recv c n : quiet (sock_recv c n).
Proof.
  intros w s. unfold sock_recv.
  destruct (sockets w !! c) as [sk|] eqn:Hc; [|done].
  destruct (closed sk); [done|].
  destruct (take_incoming _ _) as [chunk rest]. unfold written. simpl.
  destruct (decide (c = s)) as [->|Hne].
  - by rewrite lookup_insert_eq, Hc.
  - by rewrite lookup_insert_ne.
Qed.

Lemma quiet_sock_close c : quiet (sock_close c).
Proof.
  intros w s. unfold sock_close.
  destruct (sockets w !! c) as [sk|] eqn:Hc; [|done].
  unfold written. simpl. destruct (decide (c = s)) as [->|Hne].
  - by rewrite lookup_insert_eq, Hc.
  - by rewrite lookup_insert_ne.
Qed.

Lemma quiet_py_get v k : quiet (py_get v k).
Proof. destruct v; apply quiet_ret || apply quiet_raise. Qed.

Lemma quiet_py_getitem v k : quiet (py_getitem v k).
Proof.
  destruct v; try apply quiet_raise. simpl.
  destruct (_ !! _); [apply quiet_ret | apply quiet_raise].
Qed.

Lemma quiet_as_str v : quiet (as_str v).
Proof. destruct v; apply quiet_ret || apply quiet_raise. Qed.

Create HintDb quiet.
#[local] Hint Resolve quiet_ret quiet_raise quiet_stuck quiet_gets quiet_emit
  quiet_sock_recv quiet_sock_close quiet_py_get quiet_py_getitem quiet_as_str
  : quiet.






(** *** Broadcast *)




(** Showing the message on the host touches neither sockets nor registry,
    whether it succeeds or raises. *)
Lemma broadcast_show_frame data w :
  ∃ r w', broadcast_show data w = (r, w')
          ∧ r ≠ Stuck ∧ sockets w' = sockets w ∧ clients w' = clients w.
Proof.
  unfold broadcast_show, py_getitem, py_get, as_str. py_run.
  destruct data; simpl; try by eexists _, _.
  repeat (case_match; simpl in *; simplify_eq); by eexists _, _.
Qed.



End Host.

(** * Further properties *)

(** ** Message boundaries *)

Section Boundaries.
Context `{Pickle}.






(** X2: when the peer closes before the advertised payload is complete,
    [receive_from_client] returns [None] and [pickle.loads] is not called
    on what did arrive. *)
Theorem receive_from_client_truncated r size data_size pieces w rk :
  sockets w !! r = Some rk → closed rk = false →
  incoming rk = size :: pieces →
  struct_unpack_I size = Some data_size →
  blen (concat pieces) < data_size →
  ∃ w', receive_from_client r w = (Done PNone, w')
        ∧ events w' = events w
        ∧ unread w' r = Some [].
Proof.
  intros Hs Hc Hin Hun Hlen.
  assert (Hsz : length size = 4%nat).
  { unfold struct_unpack_I in Hun.
    by destruct size as [|? [|? [|? [|? [|? ?]]]]]. }
  unfold receive_from_client.
  erewrite bind_done by (by apply sock_recv_open).
  rewrite Hin.
  assert (Htake : take_incoming (Z.to_nat calcsize_I) (size :: pieces)
                  = (size, [] :: pieces)).
  { destruct size as [|b size]; [done|]. cbn [take_incoming].
    change (Z.to_nat calcsize_I) with 4%nat.
    by rewrite take_ge, drop_ge by lia. }
  rewrite Htake. cbn [fst snd].
  rewrite decide_False by (intros ->; done).
  unfold unpack_len. rewrite Hun.
  erewrite bind_done by reflexivity. cbn beta iota.
  set (rk1 := Socket ([] :: pieces) (outgoing rk) (sends_left rk) false).
  destruct (recv_payload_truncated (S (bytes_available rk1)) r data_size []
              (concat pieces) (with_socket r rk1 w) rk1)
    as (segs' & Hrest & Hrun).
  { apply sockets_with_socket. }
  { done. }
  { done. }
  { done. }
  { unfold bytes_available. simpl. lia. }
  eexists. split.
  - erewrite bind_done.
    2:{ unfold recv_all, recv_fuel.
        erewrite bind_done
          by (unfold gets; rewrite sockets_with_socket; reflexivity).
        exact Hrun. }
    reflexivity.
  - split; [done|]. unfold unread. simpl.
    rewrite insert_insert_eq, lookup_insert_eq. simpl. by rewrite Hrest.
Qed.

(** X3: the two [send] calls of a frame are not one step. On a link that
    breaks after one more write, [send_to_client] raises, logs one line,
    and leaves the length prefix on the wire without its payload. *)
Theorem send_to_client_breaks_after_prefix s data w sk :
  fits data →
  sockets w !! s = Some sk →
  can_send 1 sk = true → can_send 2 sk = false →
  ∃ size w',
    send_to_client s data w = (Raised OSError, w')
    ∧ struct_unpack_I size = Some (blen (dumps data))
    ∧ written w' s = Some (outgoing sk ++ size)
    ∧ events w' = events w ++ [Log "错误" "发送数据到客户端失败"].
Proof.
  intros Hfit Hs H1 H2.
  destruct (struct_pack_I_Some (blen (dumps data))) as [size Hp];
    [unfold fits, blen in *; lia|].
  exists size. eexists. split_and!.
  - unfold send_to_client. erewrite try_except_raised.
    2:{ unfold pack_len. rewrite Hp.
        erewrite bind_done by reflexivity. cbn beta.
        erewrite bind_done by (by apply sock_send_open).
        apply sock_send_broken with
          (sk := Socket (incoming sk) (outgoing sk ++ size)
                        (Nat.pred <$> sends_left sk) false).
        - apply sockets_with_socket.
        - unfold can_send in *. simpl.
          destruct (closed sk); [done|]. simpl in *.
          destruct (sends_left sk) as [[|[|q]]|]; simpl in *; done. }
    unfold log_event. erewrite bind_done by reflexivity. reflexivity.
  - by apply struct_unpack_pack.
  - unfold written. simpl. by rewrite lookup_insert_eq.
  - done.
Qed.

End Boundaries.

(** ** Broadcast with any number of dead connections *)

Section Fanout.
Context `{Pickle}.

Lemma remove_first_middle c pre rest :
  c ∉ pre → remove_first c (pre ++ c :: rest) = pre ++ rest.
Proof.
  induction pre as [|x pre IH]; intros Hc; simpl.
  - by rewrite decide_True.
  - rewrite decide_False by (intros ->; apply Hc; by left).
    rewrite IH; [done|]. intros ?. apply Hc. by right.
Qed.

Lemma filter_agree {A} (P Q : A → Prop) `{∀ x, Decision (P x)}
    `{∀ x, Decision (Q x)} (l : list A) :
  (∀ x, x ∈ l → P x ↔ Q x) → filter P l = filter Q l.
Proof.
  induction l as [|x l IH]; intros Hl; [done|].
  rewrite !filter_cons.
  rewrite IH by (intros y Hy; apply Hl; by right).
  destruct (decide (P x)) as [Hp|Hp], (decide (Q x)) as [Hq|Hq]; try done.
  - exfalso. apply Hq, Hl; [by left | done].
  - exfalso. apply Hp, Hl; [by left | done].
Qed.

Lemma broadcast_loop_general snapshot exclude size payload pre w :
  clients w = pre ++ snapshot →
  NoDup (pre ++ snapshot) →
  (∀ c, c ∈ snapshot → Some c ≠ exclude → is_Some (sockets w !! c)) →
  ∃ w',
    broadcast_loop snapshot exclude size payload w = (Done tt, w')
    ∧ clients w'
      = pre ++ filter (λ c, Some c = exclude ∨ takes_frame w c = true) snapshot
    ∧ (∀ c sk, c ∈ snapshot → Some c ≠ exclude →
         sockets w !! c = Some sk → can_send 2 sk = true →
         sockets w' !! c
         = Some (Socket (incoming sk) (outgoing sk ++ size ++ payload)
                        (Nat.pred <$> (Nat.pred <$> sends_left sk)) false))
    ∧ (∀ c, c ∈ snapshot → Some c ≠ exclude → takes_frame w c = false →
         (closed <$> sockets w' !! c) = Some true)
    ∧ (∀ c, c ∉ snapshot ∨ Some c = exclude →
         sockets w' !! c = sockets w !! c).
Proof.
  revert pre w.
  induction snapshot as [|c rest IH]; intros pre w Hcl Hnd Hsocks.
  - exists w. rewrite filter_nil. split_and!; try done.
    + by intros ? ? ?%elem_of_nil.
    + by intros ? ?%elem_of_nil.
  - assert (Hc_pre : c ∉ pre).
    { apply NoDup_app in Hnd as (_ & Hdis & _). intros Hin.
      apply (Hdis c Hin). by left. }
    assert (Hc_rest : c ∉ rest).
    { apply NoDup_app in Hnd as (_ & _ & Hr). by apply NoDup_cons in Hr as [? _]. }
    assert (Hnd' : NoDup ((pre ++ [c]) ++ rest)) by (by rewrite <- app_assoc).
    assert (Hnd'' : NoDup (pre ++ rest)).
    { apply NoDup_app in Hnd as (Hp & Hdis & Hr).
      apply NoDup_cons in Hr as [_ Hr]. apply NoDup_app. split_and!; try done.
      intros x Hx Hx'. apply (Hdis x Hx). by right. }
    cbn [broadcast_loop]. rewrite filter_cons.
    destruct (decide (Some c = exclude)) as [Hex|Hex].
    { rewrite bool_decide_eq_false_2 by (by intros ?).
      rewrite decide_True by (by left).
      destruct (IH (pre ++ [c]) w) as (w' & Hrun & Hcl' & Hsent & Hdead & Hsame).
      { by rewrite <- app_assoc. }
      { done. }
      { intros c' Hc' Hne. apply Hsocks; [by right | done]. }
      exists w'. erewrite bind_done by reflexivity. split_and!.
      - done.
      - by rewrite Hcl', <- app_assoc.
      - intros c' sk [->|Hc']%elem_of_cons Hne Hs Hcan; [done|]. by apply Hsent.
      - intros c' [->|Hc']%elem_of_cons Hne Hf; [done|]. by apply Hdead.
      - intros c' [Hc'|Hc'].
        + apply Hsame. left. intros ?. apply Hc'. by right.
        + apply Hsame. by right. }
    rewrite bool_decide_eq_true_2 by done.
    destruct (Hsocks c) as [sk Hs]; [by left | done |].
    destruct (can_send 2 sk) eqn:Hcan.
    + (* a live connection *)
      rewrite decide_True by (right; unfold takes_frame; by rewrite Hs).
      set (sk' := Socket (incoming sk) (outgoing sk ++ size ++ payload)
                         (Nat.pred <$> (Nat.pred <$> sends_left sk)) false).
      destruct (IH (pre ++ [c]) (with_socket c sk' w))
        as (w' & Hrun & Hcl' & Hsent & Hdead & Hsame).
      { simpl. by rewrite Hcl, <- app_assoc. }
      { done. }
      { intros c' Hc' Hne. assert (c' ≠ c) by (intros ->; done).
        rewrite sockets_with_socket_ne by done. apply Hsocks; [by right | done]. }
      assert (Hframe : ∀ c', c' ∈ rest →
                takes_frame (with_socket c sk' w) c' = takes_frame w c').
      { intros c' Hc'. unfold takes_frame.
        rewrite sockets_with_socket_ne; [done|]. by intros ->. }
      exists w'. split_and!.
      * erewrite bind_done; [exact Hrun|].
        apply try_except_done. by apply send_frame_ok.
      * rewrite Hcl', <- app_assoc. simpl. do 2 f_equal.
        apply filter_agree. intros c' Hc'. by rewrite Hframe.
      * intros c' sk'' [->|Hc']%elem_of_cons Hne Hs' Hcan'.
        -- rewrite Hsame by (by left). rewrite sockets_with_socket.
           by simplify_eq.
        -- apply Hsent; try done.
           rewrite sockets_with_socket_ne; [done|]. by intros ->.
      * intros c' [->|Hc']%elem_of_cons Hne Hf.
        -- unfold takes_frame in Hf. rewrite Hs in Hf. congruence.
        -- apply Hdead; try done. by rewrite Hframe.
      * intros c' Hc'.
        assert (c' ≠ c).
        { destruct Hc' as [Hc'|Hc']; [|by intros ->].
          intros ->. apply Hc'. by left. }
        rewrite Hsame.
        -- by rewrite sockets_with_socket_ne.
        -- destruct Hc' as [Hc'|Hc']; [left | by right].
           intros ?. apply Hc'. by right.
    + (* a dead connection: removed and closed *)
      rewrite decide_False
        by (intros [?|Hf]; [done|]; unfold takes_frame in Hf;
            rewrite Hs in Hf; congruence).
      destruct (send_frame_fails c size payload w sk Hs Hcan) as [sk1 Hfail].
      set (w2 := with_socket c
                   (Socket (incoming sk1) (outgoing sk1) (sends_left sk1) true)
                   (set_clients (remove_first c (clients w))
                      (set_events (events w ++ [Log "错误" "向客户端发送数据失败"])
                         (with_socket c sk1 w)))).
      destruct (IH pre w2) as (w' & Hrun & Hcl' & Hsent & Hdead & Hsame).
      { simpl. rewrite Hcl. by apply remove_first_middle. }
      { done. }
      { intros c' Hc' Hne. assert (c' ≠ c) by (intros ->; done).
        simpl. rewrite !lookup_insert_ne by done.
        apply Hsocks; [by right | done]. }
      assert (Hlook : ∀ c', c' ≠ c → sockets w2 !! c' = sockets w !! c').
      { intros c' Hne. simpl. by rewrite !lookup_insert_ne by done. }
      assert (Hframe : ∀ c', c' ∈ rest → takes_frame w2 c' = takes_frame w c').
      { intros c' Hc'. unfold takes_frame. rewrite Hlook; [done|].
        by intros ->. }
      exists w'. split_and!.
      * erewrite bind_done; [exact Hrun|].
        erewrite try_except_raised by exact Hfail.
        unfold log_event. erewrite bind_done by reflexivity.
        erewrite bind_done by (unfold gets; reflexivity). simpl clients.
        rewrite bool_decide_eq_true_2
          by (change (c ∈ clients w); rewrite Hcl; apply elem_of_app; right;
              by left).
        erewrite bind_done by reflexivity.
        unfold try_pass. apply try_except_done.
        rewrite (sock_close_open _ _ sk1) by (simpl; apply lookup_insert_eq).
        reflexivity.
      * rewrite Hcl'. f_equal.
        apply filter_agree. intros c' Hc'. by rewrite Hframe.
      * intros c' sk'' [->|Hc']%elem_of_cons Hne Hs' Hcan'.
        -- congruence.
        -- apply Hsent; try done. rewrite Hlook; [done|]. by intros ->.
      * intros c' [->|Hc']%elem_of_cons Hne Hf.
        -- rewrite Hsame by (by left). simpl. by rewrite lookup_insert_eq.
        -- apply Hdead; try done. by rewrite Hframe.
      * intros c' Hc'.
        assert (c' ≠ c).
        { destruct Hc' as [Hc'|Hc']; [|by intros ->].
          intros ->. apply Hc'. by left. }
        rewrite Hsame.
        -- by apply Hlook.
        -- destruct Hc' as [Hc'|Hc']; [left | by right].
           intros ?. apply Hc'. by right.
Qed.

Lemma broadcast_data_general data exclude w :
  fits data →
  NoDup (clients w) →
  (∀ c, c ∈ clients w → Some c ≠ exclude → is_Some (sockets w !! c)) →
  ∃ w',
    broadcast_data data exclude w = (Done tt, w')
    ∧ clients w'
      = filter (λ c, Some c = exclude ∨ takes_frame w c = true) (clients w)
    ∧ (∀ c sk, c ∈ clients w → Some c ≠ exclude →
         sockets w !! c = Some sk → can_send 2 sk = true →
         written w' c = Some (outgoing sk ++ frame data)
         ∧ (closed <$> sockets w' !! c) = Some false)
    ∧ (∀ c, c ∈ clients w → Some c ≠ exclude → takes_frame w c = false →
         (closed <$> sockets w' !! c) = Some true)
    ∧ (∀ c, c ∉ clients w ∨ Some c = exclude →
         sockets w' !! c = sockets w !! c).
Proof.
  intros Hfit Hnd Hsocks.
  destruct (struct_pack_I_Some (blen (dumps data))) as [size Hp];
    [unfold fits, blen in *; lia|].
  destruct (broadcast_loop_general (clients w) exclude size (dumps data) [] w)
    as (w1 & Hrun & Hcl & Hsent & Hdead & Hsame); try done.
  destruct (broadcast_show_frame data w1) as (r & w2 & Hshow & Hr & Hs2 & Hc2).
  assert (Hfinal : ∃ w', broadcast_data data exclude w = (Done tt, w')
                         ∧ sockets w' = sockets w1 ∧ clients w' = clients w1).
  { unfold broadcast_data, pack_len. rewrite Hp.
    destruct r as [[]|e|]; [| |done].
    - exists w2. split; [|done]. apply try_except_done.
      py_step. erewrite bind_done by (unfold gets; reflexivity).
      by erewrite bind_done by exact Hrun.
    - eexists. split.
      + erewrite try_except_raised; [reflexivity|].
        py_step. erewrite bind_done by (unfold gets; reflexivity).
        by erewrite bind_done by exact Hrun.
      + done. }
  destruct Hfinal as (w' & Hbc & Hs' & Hc').
  exists w'. rewrite Hc', Hcl. unfold written. rewrite Hs'.
  split_and!; try done.
  intros c sk Hc Hne Hs Hcan.
  rewrite (Hsent c sk) by done. simpl. unfold frame. by rewrite Hp.
Qed.


(** X5: a chat message typed on a connected host reaches every registered
    connection that can take it, as one frame carrying the text and the
    sender [host]; the connections that cannot are dropped from the
    registry; the host's own window shows the text under the name for
    oneself; and nothing is raised. *)
Theorem host_chat_reaches_live_clients message timestamp w :
  message ≠ ""%string →
  is_connected w = true → is_host w = true →
  fits (chat_message message timestamp true) →
  NoDup (clients w) →
  (∀ c, c ∈ clients w → is_Some (sockets w !! c)) →
  ∃ w',
    send_chat_message message timestamp w = (Done tt, w')
    ∧ clients w' = filter (λ c, takes_frame w c = true) (clients w)
    ∧ (∀ c sk, c ∈ clients w → sockets w !! c = Some sk →
         can_send 2 sk = true →
         written w' c
         = Some (outgoing sk ++ frame (chat_message message timestamp true)))
    ∧ ("我"%string, PStr message) ∈ chat_shown (events w').
Proof.
  intros Hmsg Hconn Hhost Hfit Hnd Hsocks.
  destruct (broadcast_data_general (chat_message message timestamp true) None w)
    as (w1 & Hrun & Hcl & Hsent & _); try done.
  { intros c Hc _. by apply Hsocks. }
  exists (set_events (events w1 ++ [ChatShown "我" (PStr message)]) w1).
  split_and!.
  - unfold send_chat_message.
    erewrite bind_done by (unfold gets; reflexivity).
    rewrite Hconn, bool_decide_eq_false_2 by done. cbn [negb andb].
    apply try_except_done.
    erewrite bind_done by (unfold gets; reflexivity). rewrite Hhost.
    cbn beta iota zeta. fold (chat_message message timestamp true).
    by erewrite bind_done by exact Hrun.
  - simpl. rewrite Hcl. apply filter_agree. intros c Hc. split.
    + by intros [?|?].
    + by right.
  - intros c sk Hc Hs Hcan. by destruct (Hsent c sk Hc) as [? _].
  - simpl. unfold chat_shown. rewrite omap_app. apply elem_of_app. right.
    simpl. by left.
Qed.

End Fanout.

(** ** The accept loop over many connections *)

Section Accepting.
Context `{Pickle}.

Lemma accept_one_outcome c timestamp w sk :
  sockets w !! c = Some sk →
  ∃ w',
    accept_one c timestamp w = (Done tt, w')
    ∧ is_host w' = is_host w
    ∧ (∀ c', c' ≠ c → sockets w' !! c' = sockets w !! c')
    ∧ (if can_send 2 sk
          && bool_decide (blen (dumps (welcome_data timestamp)) < 2 ^ 32)
       then clients w' = clients w ++ [c]
            ∧ sockets w' !! c
              = Some (Socket (incoming sk)
                             (outgoing sk ++ frame (welcome_data timestamp))
                             (Nat.pred <$> (Nat.pred <$> sends_left sk)) false)
       else clients w' = clients w
            ∧ (closed <$> sockets w' !! c) = Some true).
Proof.
  intros Hs. set (payload := dumps (welcome_data timestamp)).
  destruct (bool_decide (blen payload < 2 ^ 32)) eqn:Hfit.
  - apply bool_decide_eq_true in Hfit.
    destruct (struct_pack_I_Some (blen payload)) as [size Hp];
      [unfold blen in *; lia|].
    assert (Hbody : ∀ k : Py unit,
              (size ← pack_len payload;
               sock_send c size;; sock_send c payload;; k) w
              = ((sock_send c size;; sock_send c payload) ≫= λ _, k) w).
    { intros k. unfold pack_len. rewrite Hp. py_step. by rewrite bind_assoc. }
    destruct (can_send 2 sk) eqn:Hcan; cbn [andb].
    + eexists. split_and!.
      * unfold accept_one. apply try_except_done. fold payload.
        rewrite Hbody. erewrite bind_done by (by apply send_frame_ok).
        py_run. reflexivity.
      * done.
      * intros c' Hne. simpl. by rewrite lookup_insert_ne.
      * done.
      * simpl. rewrite lookup_insert_eq.
        unfold frame. fold payload. by rewrite Hp.
    + destruct (send_frame_fails c size payload w sk Hs Hcan) as [sk1 Hfail].
      eexists. split_and!.
      * unfold accept_one. fold payload. erewrite try_except_raised.
        2:{ rewrite Hbody. by erewrite bind_raised by exact Hfail. }
        unfold log_event. erewrite bind_done by reflexivity.
        unfold try_pass. apply try_except_done.
        apply sock_close_open. simpl. apply lookup_insert_eq.
      * done.
      * intros c' Hne. simpl. by rewrite !lookup_insert_ne.
      * done.
      * simpl. by rewrite lookup_insert_eq.
  - apply bool_decide_eq_false in Hfit. rewrite andb_false_r.
    eexists. split_and!.
    + unfold accept_one. fold payload. erewrite try_except_raised.
      2:{ unfold pack_len.
          rewrite struct_pack_I_None by (unfold blen in *; lia).
          reflexivity. }
      unfold log_event. erewrite bind_done by reflexivity.
      unfold try_pass. apply try_except_done.
      by apply sock_close_open.
    + done.
    + intros c' Hne. simpl. by rewrite lookup_insert_ne.
    + done.
    + simpl. by rewrite lookup_insert_eq.
Qed.

Lemma admitted_agree w1 w arrivals :
  (∀ c timestamp, Some (c, timestamp) ∈ arrivals →
                  sockets w1 !! c = sockets w !! c) →
  admitted w1 arrivals = admitted w arrivals.
Proof.
  induction arrivals as [|a rest IH]; intros Hsame; [done|].
  unfold admitted in *. cbn [omap list_omap].
  rewrite IH by (intros c t Hc; apply (Hsame c t); by right).
  destruct a as [[c t]|]; [|done].
  unfold takes_frame. by rewrite (Hsame c t) by (by left).
Qed.

(** X6: while the object is a host, the accept loop over any sequence of
    results of [accept()], the accepted sockets being different objects,
    appends to the registry exactly the connections whose handshake went
    out whole, in the order of their arrival; each of them has the framed
    welcome message as its latest bytes and is open, every other accepted
    connection is closed, and no socket outside the arrivals is touched. *)
Theorem accept_connections_registers_in_order arrivals w :
  is_host w = true →
  NoDup (omap (fmap fst) arrivals) →
  (∀ c timestamp, Some (c, timestamp) ∈ arrivals → is_Some (sockets w !! c)) →
  ∃ w',
    accept_connections arrivals w = (Done tt, w')
    ∧ clients w' = clients w ++ admitted w arrivals
    ∧ (∀ c timestamp sk,
         Some (c, timestamp) ∈ arrivals → sockets w !! c = Some sk →
         if can_send 2 sk
            && bool_decide (blen (dumps (welcome_data timestamp)) < 2 ^ 32)
         then written w' c
              = Some (outgoing sk ++ frame (welcome_data timestamp))
              ∧ (closed <$> sockets w' !! c) = Some false
         else (closed <$> sockets w' !! c) = Some true)
    ∧ (∀ c, c ∉ omap (fmap fst) arrivals → sockets w' !! c = sockets w !! c).
Proof.
  revert w. induction arrivals as [|a rest IH]; intros w Hhost Hnd Hsocks.
  - exists w. rewrite app_nil_r. split_and!; try done.
    by intros ? ? ? ?%elem_of_nil.
  - cbn [accept_connections].
    destruct a as [[c t]|].
    + cbn [omap list_omap fmap option_fmap option_map fst] in Hnd.
      apply NoDup_cons in Hnd as [Hc Hnd].
      destruct (Hsocks c t) as [sk Hs]; [by left|].
      destruct (accept_one_outcome c t w sk Hs)
        as (w1 & Hrun & Hh1 & Hother & Hok).
      assert (Hrest : ∀ c' t', Some (c', t') ∈ rest → c' ≠ c).
      { intros c' t' Hin ->. apply Hc.
        apply list_elem_of_omap. by exists (Some (c, t')). }
      destruct (IH w1) as (w' & Hloop & Hcl & Heach & Hsame).
      { by rewrite Hh1. }
      { done. }
      { intros c' t' Hin. rewrite Hother by (by eapply Hrest).
        apply (Hsocks c' t'). by right. }
      exists w'. split_and!.
      * erewrite bind_done by (unfold gets; reflexivity). rewrite Hhost.
        by erewrite bind_done by exact Hrun.
      * rewrite Hcl.
        rewrite (admitted_agree w1 w rest)
          by (intros c' t' Hin; apply Hother; by eapply Hrest).
        unfold admitted at 2. cbn [omap list_omap]. fold (admitted w rest).
        unfold takes_frame. rewrite Hs.
        destruct (can_send 2 sk && bool_decide _);
          destruct Hok as [-> _]; [by rewrite <- app_assoc | done].
      * intros c' t' sk' [Heq|Hin]%elem_of_cons Hs'.
        -- simplify_eq. unfold written. rewrite Hsame by done.
           destruct (can_send 2 sk && bool_decide _);
             destruct Hok as [_ Hsk]; rewrite Hsk; done.
        -- apply (Heach c' t' sk' Hin).
           rewrite Hother; [done|]. by eapply Hrest.
      * intros c' Hc'.
        cbn [omap list_omap fmap option_fmap option_map fst] in Hc'.
        apply not_elem_of_cons in Hc' as [Hne Hc'].
        rewrite Hsame by done. by apply Hother.
    + cbn [omap list_omap fmap option_fmap option_map] in Hnd.
      destruct (IH (set_events (events w ++ [Log "错误" "接受客户端连接失败"]) w))
        as (w' & Hloop & Hcl & Heach & Hsame).
      { done. }
      { done. }
      { intros c' t' Hin. apply (Hsocks c' t'). by right. }
      exists w'. split_and!.
      * erewrite bind_done by (unfold gets; reflexivity). rewrite Hhost.
        erewrite bind_done; [exact Hloop|].
        erewrite bind_done by (unfold gets; reflexivity). by rewrite Hhost.
      * done.
      * intros c' t' sk' [Heq|Hin]%elem_of_cons Hs'; [done|].
        by apply (Heach c' t' sk' Hin).
      * done.
Qed.

End Accepting.

(** ** The handler of one connection *)

Section Steady.
Context (P : relation VideoConference) `{!PreOrder P}.

Lemma steady_ret {A} (a : A) : steady P (mret a).
Proof. by intros w. Qed.

Lemma steady_raise {A} e : steady P (@raise A e).
Proof. by intros w. Qed.

Lemma steady_gets {A} (f : VideoConference → A) : steady P (gets f).
Proof. by intros w. Qed.

Lemma steady_modify f : (∀ w, P w (f w)) → steady P (modify f).
Proof. intros Hf w. by split; [|apply Hf]. Qed.

Lemma steady_bind {A B} (m : Py A) (f : A → Py B) :
  steady P m → (∀ a, steady P (f a)) → steady P (m ≫= f).
Proof.
  intros Hm Hf w. destruct (Hm w) as [Hns Hw]. unfold mbind, Py_bind.
  destruct (m w) as [[a|e|] w1]; simpl in *; [|done|done].
  destruct (Hf a w1) as [Hns1 Hw1]. split; [done|]. by etrans.
Qed.

Lemma steady_try_except {A} (m : Py A) h :
  steady P m → (∀ e, steady P (h e)) → steady P (try_except m h).
Proof.
  intros Hm Hh w. destruct (Hm w) as [Hns Hw]. unfold try_except.
  destruct (m w) as [[a|e|] w1]; simpl in *; [done| |done].
  destruct (Hh e w1) as [Hns1 Hw1]. split; [done|]. by etrans.
Qed.

Lemma steady_try_finally {A} (m : Py A) f :
  steady P m → steady P f → steady P (try_finally m f).
Proof.
  intros Hm Hf w. destruct (Hm w) as [Hns Hw]. unfold try_finally.
  destruct (m w) as [[a|e|] w1]; simpl in *; [| |done];
    destruct (Hf w1) as [Hns1 Hw1];
    destruct (f w1) as [[[]|e'|] w2]; simpl in *;
    (split; [done | by etrans]).
Qed.

Lemma steady_py_get v k : steady P (py_get v k).
Proof. destruct v; apply steady_ret || apply steady_raise. Qed.

Lemma steady_py_get_default v k d : steady P (py_get_default v k d).
Proof. destruct v; apply steady_ret || apply steady_raise. Qed.

Lemma steady_py_getitem v k : steady P (py_getitem v k).
Proof.
  destruct v; try apply steady_raise. simpl.
  destruct (_ !! _); [apply steady_ret | apply steady_raise].
Qed.

Lemma steady_as_str v : steady P (as_str v).
Proof. destruct v; apply steady_ret || apply steady_raise. Qed.

Lemma steady_as_int v : steady P (as_int v).
Proof. destruct v; apply steady_ret || apply steady_raise. Qed.

Lemma steady_as_bytes v : steady P (as_bytes v).
Proof. destruct v; apply steady_ret || apply steady_raise. Qed.

End Steady.

Create HintDb steady.
#[local] Hint Resolve steady_ret steady_raise steady_gets steady_py_get
  steady_py_get_default steady_py_getitem steady_as_str steady_as_int
  steady_as_bytes : steady.

Ltac steady_step :=
  first
    [ solve [auto with steady typeclass_instances]
    | apply steady_bind; [apply _| |intros ?]
    | apply steady_try_except; [apply _| |intros ?]
    | apply steady_try_finally; [apply _| |]
    | case_match ].

Section Handler.
Context `{Pickle}.

Lemma only_reads_same s w w' :
  clients w' = clients w → is_host w' = is_host w → sockets w' = sockets w →
  only_reads s w w'.
Proof.
  intros Hc Hh Hs. unfold only_reads, pending_bytes. rewrite Hc, Hh, Hs.
  split_and!; done.
Qed.

#[local] Instance only_reads_preorder s : PreOrder (only_reads s).
Proof.
  split.
  - intros w. by apply only_reads_same.
  - intros w1 w2 w3 (Hc1 & Hh1 & Ho1 & Hcl1 & Hp1) (Hc2 & Hh2 & Ho2 & Hcl2 & Hp2).
    unfold only_reads. split_and!; try congruence; [|lia].
    intros c Hc. by rewrite Ho2, Ho1.
Qed.

Lemma steady_emit s e : steady (only_reads s) (emit e).
Proof. apply steady_modify. intros w. by apply only_reads_same. Qed.

Lemma length_take_incoming n segs :
  length (concat segs)
  = (length (take_incoming n segs).1
     + length (concat (take_incoming n segs).2))%nat.
Proof.
  induction segs as [|seg segs IH]; [done|].
  destruct seg as [|b seg]; [exact IH|].
  cbn [take_incoming fst snd]. rewrite !concat_cons, !length_app.
  rewrite <- (take_drop n (b :: seg)) at 1. rewrite length_app. lia.
Qed.

(** One call of [recv]: it returns, only the socket read from changes, and
    a chunk that is not empty has left the socket. *)
Lemma sock_recv_reads s n w :
  (sock_recv s n w).1 ≠ Stuck
  ∧ only_reads s w (sock_recv s n w).2
  ∧ ∀ chunk, (sock_recv s n w).1 = Done chunk → chunk ≠ [] →
      (pending_bytes (sock_recv s n w).2 s < pending_bytes w s)%nat.
Proof.
  unfold sock_recv. destruct (sockets w !! s) as [sk|] eqn:Hs.
  2:{ split_and!; [done | reflexivity | done]. }
  destruct (closed sk) eqn:Hc.
  { split_and!; [done | reflexivity | done]. }
  pose proof (length_take_incoming (Z.to_nat n) (incoming sk)) as Hlen.
  destruct (take_incoming _ _) as [chunk rest]. simpl in *.
  assert (Hp : pending_bytes w s = (length chunk + length (concat rest))%nat).
  { unfold pending_bytes, bytes_available. by rewrite Hs. }
  assert (Hp' : pending_bytes
                  (with_socket s (Socket rest (outgoing sk) (sends_left sk) false) w) s
                = length (concat rest)).
  { unfold pending_bytes, bytes_available. by rewrite sockets_with_socket. }
  split_and!.
  - done.
  - unfold only_reads. rewrite Hp, Hp'. split_and!; try done.
    + intros c Hc'. by apply sockets_with_socket_ne.
    + by rewrite sockets_with_socket, Hs, <- Hc.
    + lia.
  - intros chunk' [= <-] Hne. rewrite Hp, Hp'.
    destruct chunk; [done | simpl; lia].
Qed.

Lemma steady_sock_recv s n : steady (only_reads s) (sock_recv s n).
Proof. intros w. by destruct (sock_recv_reads s n w) as (? & ? & _). Qed.

Lemma recv_payload_reads fuel s data_size received w :
  (pending_bytes w s < fuel)%nat →
  (recv_payload fuel s data_size received w).1 ≠ Stuck
  ∧ only_reads s w (recv_payload fuel s data_size received w).2.
Proof.
  revert received w. induction fuel as [|fuel IH]; intros received w Hf; [lia|].
  cbn [recv_payload]. case_decide as Hlt; [|by split].
  unfold mbind, Py_bind.
  destruct (sock_recv_reads s (Z.min (data_size - blen received) 8192) w)
    as (Hns & Hro & Hdec).
  destruct (sock_recv s _ w) as [[chunk|e|] w1]; simpl in *; [|done|done].
  case_decide as Hchunk; [by split|].
  destruct (IH (received ++ chunk) w1) as [Hns1 Hro1].
  { specialize (Hdec chunk eq_refl Hchunk). lia. }
  split; [done|]. by etrans.
Qed.

Lemma steady_recv_all s data_size : steady (only_reads s) (recv_all s data_size).
Proof.
  intros w. unfold recv_all, recv_fuel, mbind, Py_bind, gets.
  apply recv_payload_reads. unfold pending_bytes, bytes_available.
  destruct (sockets w !! s); lia.
Qed.

#[local] Hint Resolve steady_emit steady_sock_recv steady_recv_all : steady.





Lemma remove_first_absent c l : c ∉ l → remove_first c l = l.
Proof.
  induction l as [|x l IH]; intros Hc; [done|]. simpl.
  rewrite decide_False by (intros ->; apply Hc; by left).
  rewrite IH; [done|]. intros ?. apply Hc. by right.
Qed.

(** The [finally] block of [handle_client], after a body that ended in
    [w1]. *)
Lemma handle_client_finally c w w1 sk1 :
  (log_event "连接" "开始处理客户端连接";;
   fuel ← recv_fuel c; handle_client_loop fuel c) w = (Done tt, w1) →
  sockets w1 !! c = Some sk1 →
  ∃ w',
    handle_client c w = (Done tt, w')
    ∧ clients w' = remove_first c (clients w1)
    ∧ sockets w' = <[c := shut sk1]> (sockets w1)
    ∧ is_host w' = is_host w1
    ∧ events w' = events w1 ++ [Log "连接" "客户端连接处理结束"].
Proof.
  intros Hbody Hs1. destruct (decide (c ∈ clients w1)) as [Hin|Hin].
  - eexists. split.
    + unfold handle_client. eapply try_finally_done; [exact Hbody|].
      erewrite bind_done by (unfold gets; reflexivity).
      rewrite bool_decide_eq_true_2 by done.
      erewrite bind_done by reflexivity.
      erewrite bind_done
        by (unfold try_pass; apply try_except_done;
            by apply (sock_close_open _ _ sk1)).
      reflexivity.
    + done.
  - eexists. split.
    + unfold handle_client. eapply try_finally_done; [exact Hbody|].
      erewrite bind_done by (unfold gets; reflexivity).
      rewrite bool_decide_eq_false_2 by done.
      erewrite bind_done by reflexivity.
      erewrite bind_done
        by (unfold try_pass; apply try_except_done;
            by apply (sock_close_open _ _ sk1)).
      reflexivity.
    + simpl. by rewrite remove_first_absent.
Qed.


(** X8: a frame whose length prefix is zero ends the handler at once and
    without a word: the connection is taken off the registry and closed,
    no line about a lost connection or an error is logged, and what the
    peer sent after that frame is never read. *)
Theorem empty_frame_ends_handler c w sk size pieces :
  is_host w = true →
  sockets w !! c = Some sk → closed sk = false →
  incoming sk = size :: pieces →
  struct_unpack_I size = Some 0 →
  ∃ w',
    handle_client c w = (Done tt, w')
    ∧ unread w' c = Some (concat pieces)
    ∧ events w' = events w ++ [Log "连接" "开始处理客户端连接";
                               Log "连接" "客户端连接处理结束"]
    ∧ clients w' = remove_first c (clients w)
    ∧ (closed <$> sockets w' !! c) = Some true.
Proof.
  intros Hhost Hs Hc Hin Hun.
  assert (Hsz : length size = 4%nat).
  { unfold struct_unpack_I in Hun.
    by destruct size as [|? [|? [|? [|? [|? ?]]]]]. }
  assert (Htake : take_incoming (Z.to_nat calcsize_I) (size :: pieces)
                  = (size, [] :: pieces)).
  { destruct size as [|b size]; [done|]. cbn [take_incoming].
    change (Z.to_nat calcsize_I) with 4%nat.
    by rewrite take_ge, drop_ge by lia. }
  set (w0 := set_events (events w ++ [Log "连接" "开始处理客户端连接"]) w).
  set (sk1 := Socket ([] :: pieces) (outgoing sk) (sends_left sk) false).
  assert (Hturn : handle_client_turn c w0 = (Done Break, with_socket c sk1 w0)).
  { unfold handle_client_turn. apply try_except_done.
    erewrite bind_done by (by apply (sock_recv_open _ _ _ sk)).
    rewrite Hin, Htake. cbn [fst snd].
    rewrite decide_False by (intros ->; done).
    unfold unpack_len. rewrite Hun.
    erewrite bind_done by reflexivity. cbn beta iota.
    erewrite bind_done.
    2:{ unfold recv_all, recv_fuel.
        erewrite bind_done
          by (unfold gets; rewrite sockets_with_socket; reflexivity).
        cbn [recv_payload]. by rewrite decide_False by (unfold blen; simpl; lia). }
    cbn beta iota. erewrite bind_done by reflexivity.
    by rewrite decide_True by done. }
  destruct (handle_client_finally c w (with_socket c sk1 w0) sk1)
    as (w' & Hrun & Hcl' & Hs' & Hh' & He').
  { unfold log_event. erewrite bind_done by reflexivity. fold w0.
    unfold recv_fuel.
    erewrite bind_done by (unfold gets; simpl; rewrite Hs; reflexivity).
    cbn [handle_client_loop].
    erewrite bind_done by (unfold gets; reflexivity).
    change (is_host w0) with (is_host w). rewrite Hhost.
    by erewrite bind_done by exact Hturn. }
  { apply sockets_with_socket. }
  exists w'. split_and!.
  - done.
  - unfold unread. by rewrite Hs', lookup_insert_eq.
  - rewrite He'. simpl. by rewrite <- app_assoc.
  - by rewrite Hcl'.
  - by rewrite Hs', lookup_insert_eq.
Qed.

End Handler.

(** ** Stopping the host *)

Section Stopping.
Context `{Pickle}.

Lemma shut_shut sk : shut (shut sk) = shut sk.
Proof. done. Qed.

(** Closing a list of connections closes each of them, once or more, and
    does nothing else. *)
Lemma close_all_run cs w :
  ∃ w',
    close_all cs w = (Done tt, w')
    ∧ (∀ c, sockets w' !! c
            = if bool_decide (c ∈ cs) then shut <$> sockets w !! c
              else sockets w !! c)
    ∧ clients w' = clients w ∧ is_host w' = is_host w
    ∧ is_connected w' = is_connected w ∧ events w' = events w.
Proof.
  revert w. induction cs as [|c cs IH]; intros w.
  - exists w. split_and!; try done.
  - assert (Hclose : ∃ w1, sock_close c w = (Done tt, w1)
                ∧ sockets w1 = (if sockets w !! c is Some sk
                                then <[c := shut sk]> (sockets w)
                                else sockets w)
                ∧ clients w1 = clients w ∧ is_host w1 = is_host w
                ∧ is_connected w1 = is_connected w ∧ events w1 = events w).
    { unfold sock_close. destruct (sockets w !! c) as [sk|]; by eexists. }
    destruct Hclose as (w1 & Hclose & Hs1 & Hc1 & Hh1 & Hi1 & He1).
    destruct (IH w1) as (w' & Hrun & Hs' & Hc' & Hh' & Hi' & He').
    exists w'. split_and!; try congruence.
    + cbn [close_all].
      erewrite bind_done
        by (unfold try_pass; apply try_except_done; exact Hclose).
      exact Hrun.
    + intros c'. rewrite Hs', Hs1.
      destruct (decide (c' = c)) as [->|Hne].
      * rewrite (bool_decide_eq_true_2 (c ∈ c :: cs)) by (by left).
        destruct (sockets w !! c) as [sk|] eqn:Hs.
        -- rewrite lookup_insert_eq. by case_bool_decide.
        -- rewrite Hs. by case_bool_decide.
      * assert (Hlook : (if sockets w !! c is Some sk
                         then <[c := shut sk]> (sockets w)
                         else sockets w) !! c' = sockets w !! c').
        { destruct (sockets w !! c); [by rewrite lookup_insert_ne | done]. }
        rewrite Hlook.
        destruct (decide (c' ∈ cs)) as [Hin|Hin].
        -- rewrite !bool_decide_eq_true_2; [done | by right | done].
        -- rewrite !bool_decide_eq_false_2; [done | | done].
           by intros [?|?]%elem_of_cons.
Qed.

(** X9: [stop_server] on a host closes every registered connection and the
    listening socket without writing a byte on any of them, leaves every
    other socket alone, empties the registry and clears both flags. After
    it the accept loop takes no further connection, and a handler that
    comes to the test of its loop leaves it there, without reading what is
    left on its connection and without writing. *)
Theorem stop_server_closes_everything server_socket w :
  is_host w = true →
  ∃ w',
    stop_server server_socket w = (Done tt, w')
    ∧ is_host w' = false ∧ is_connected w' = false ∧ clients w' = []
    ∧ (∀ c, c ∈ clients w ∨ c = server_socket →
            sockets w' !! c = shut <$> sockets w !! c)
    ∧ (∀ c, c ∉ clients w → c ≠ server_socket →
            sockets w' !! c = sockets w !! c)
    ∧ (∀ arrivals, accept_connections arrivals w' = (Done tt, w'))
    ∧ (∀ c, is_Some (sockets w !! c) →
            ∃ w'', handle_client c w' = (Done tt, w'')
                   ∧ unread w'' c = unread w c ∧ written w'' c = written w c).
Proof.
  intros Hhost.
  destruct (close_all_run (clients w) w)
    as (w1 & Hrun & Hs1 & Hc1 & Hh1 & Hi1 & He1).
  assert (Hclose : ∃ w2, sock_close server_socket w1 = (Done tt, w2)
              ∧ sockets w2 = (if sockets w1 !! server_socket is Some sk
                              then <[server_socket := shut sk]> (sockets w1)
                              else sockets w1)).
  { unfold sock_close. destruct (sockets w1 !! server_socket) as [sk|];
      by eexists. }
  destruct Hclose as (w2 & Hclose & Hs2).
  assert (Hlook : ∀ c, sockets w2 !! c
                       = if bool_decide (c ∈ clients w ∨ c = server_socket)
                         then shut <$> sockets w !! c else sockets w !! c).
  { intros c. rewrite Hs2. destruct (decide (c = server_socket)) as [->|Hne].
    - rewrite bool_decide_eq_true_2 by (by right).
      specialize (Hs1 server_socket).
      destruct (sockets w1 !! server_socket) as [sk|] eqn:Hsk.
      + rewrite lookup_insert_eq. case_bool_decide.
        * destruct (sockets w !! server_socket) as [sk0|]; [|done].
          simpl in *. by simplify_eq.
        * by rewrite <- Hs1.
      + rewrite Hsk. case_bool_decide.
        * by destruct (sockets w !! server_socket).
        * by rewrite <- Hs1.
    - assert (Hl : (if sockets w1 !! server_socket is Some sk
                    then <[server_socket := shut sk]> (sockets w1)
                    else sockets w1) !! c = sockets w1 !! c).
      { destruct (sockets w1 !! server_socket);
          [by rewrite lookup_insert_ne | done]. }
      rewrite Hl, Hs1.
      destruct (decide (c ∈ clients w)) as [Hin|Hin].
      + rewrite !bool_decide_eq_true_2; [done | by left | done].
      + rewrite !bool_decide_eq_false_2; [done | | done].
        by intros [?|?]. }
  set (w' := set_events (events w2 ++ [UiDisconnected])
               (set_clients []
                  (set_is_connected false (set_is_host false w2)))).
  assert (Hstop : stop_server server_socket w = (Done tt, w')).
  { unfold stop_server.
    erewrite bind_done by (unfold gets; reflexivity). rewrite Hhost.
    erewrite bind_done by (unfold gets; reflexivity).
    erewrite bind_done by exact Hrun.
    erewrite bind_done
      by (unfold try_pass; apply try_except_done; exact Hclose).
    reflexivity. }
  exists w'. split_and!; try done.
  - intros c Hc. change (sockets w') with (sockets w2).
    by rewrite Hlook, bool_decide_eq_true_2.
  - intros c Hc Hne. change (sockets w') with (sockets w2).
    rewrite Hlook, bool_decide_eq_false_2; [done|]. by intros [?|?].
  - intros arrivals. by destruct arrivals.
  - intros c [sk Hsk].
    assert (Hsk' : ∃ sk', sockets w' !! c = Some sk'
                     ∧ incoming sk' = incoming sk ∧ outgoing sk' = outgoing sk).
    { change (sockets w') with (sockets w2). rewrite Hlook, Hsk.
      case_bool_decide; by eexists. }
    destruct Hsk' as (sk' & Hsk' & Hin' & Hout').
    destruct (handle_client_finally c w'
                (set_events (events w' ++ [Log "连接" "开始处理客户端连接"]) w') sk')
      as (w'' & Hh & _ & Hs'' & _).
    { unfold log_event. erewrite bind_done by reflexivity.
      unfold recv_fuel.
      erewrite bind_done by (unfold gets; simpl; reflexivity).
      destruct (sockets w2 !! c); cbn [handle_client_loop];
        by erewrite bind_done by (unfold gets; reflexivity). }
    { done. }
    exists w''. split; [done|]. unfold unread, written.
    rewrite Hs'', lookup_insert_eq, Hsk. simpl. by rewrite Hin', Hout'.
Qed.

End Stopping.

(** ** Receiving a file *)

Section Receiving.
Context `{Pickle} `{Md5}.





(** A [file_end] message for a transfer whose buffer has the advertised
    digest. *)
Lemma handle_file_end_verified d t entry info name buffer answer rest w :
  d !! "transfer_id" = Some (PStr t) →
  d !! "type" = Some (PStr "file_end") →
  pending_files w !! t = Some entry →
  entry !! "buffer" = Some (PBytes buffer) →
  entry !! "info" = Some (PDict info) →
  info !! "name" = Some (PStr name) →
  info !! "md5" = Some (PStr (md5_hexdigest buffer)) →
  dialogs w = answer :: rest →
  ∃ w',
    _handle_file_data (PDict d) w = (Done tt, w')
    ∧ pending_files w' = delete t (pending_files w)
    ∧ dialogs w' = rest ∧ sockets w' = sockets w
    ∧ (∀ path, answer = Some path → path ≠ ""%string →
         files w' = <[path := buffer]> (files w)
         ∧ events w' = events w ++ [SaveDialog name; FileWritten path buffer;
                                    FileProgress name 100])
    ∧ (answer = None ∨ answer = Some ""%string →
         files w' = files w ∧ events w' = events w ++ [SaveDialog name]).
Proof.
  intros Hid Hty Hp Hb Hi Hn Hm Hd.
  unfold _handle_file_data, py_get, is_pending, pending_entry, py_getitem,
    as_str, as_bytes, as_int.
  py_run.
  repeat (progress (rewrite ?Hid, ?Hp, ?Hty; simpl)).
  unfold _complete_file_transfer, pending_entry, py_getitem, as_bytes, as_str,
    save_dialog, del_pending.
  py_run.
  repeat (progress (rewrite ?Hp, ?Hb, ?Hi, ?Hm; simpl)).
  rewrite bool_decide_eq_true_2 by done. simpl.
  repeat (progress (rewrite ?Hi, ?Hn, ?Hd; simpl)).
  destruct answer as [path|]; simpl.
  - case_bool_decide as Hpath; simpl; rewrite Hp; simpl.
    + eexists. split; [reflexivity|]. simpl. split_and!; try done.
      intros path' [= <-] Hne. done.
    + eexists. split; [reflexivity|]. simpl. split_and!; try done.
      * intros path' [= <-] _. split; [done|]. by rewrite <- !app_assoc.
      * intros [?|[= ->]]; done.
  - rewrite Hp. simpl. eexists. split; [reflexivity|]. simpl.
    split_and!; try done.
Qed.


(** X11: a [file_end] message for a transfer whose buffer has the
    advertised digest opens the save dialog. With a path chosen the buffer
    is written to that path and 100 is reported; with the dialog cancelled
    nothing is written and nothing reported. Either way the transfer is
    forgotten, buffer included. *)
Theorem verified_transfer_is_saved_or_dropped d t entry info name buffer
    answer rest w :
  d !! "transfer_id" = Some (PStr t) →
  d !! "type" = Some (PStr "file_end") →
  pending_files w !! t = Some entry →
  entry !! "buffer" = Some (PBytes buffer) →
  entry !! "info" = Some (PDict info) →
  info !! "name" = Some (PStr name) →
  info !! "md5" = Some (PStr (md5_hexdigest buffer)) →
  dialogs w = answer :: rest →
  ∃ w',
    _handle_file_data (PDict d) w = (Done tt, w')
    ∧ pending_files w' = delete t (pending_files w)
    ∧ (∀ path, answer = Some path → path ≠ ""%string →
         files w' = <[path := buffer]> (files w)
         ∧ events w' = events w ++ [SaveDialog name; FileWritten path buffer;
                                    FileProgress name 100])
    ∧ (answer = None ∨ answer = Some ""%string →
         files w' = files w ∧ events w' = events w ++ [SaveDialog name]).
Proof.
  intros Hid Hty Hp Hb Hi Hn Hm Hd.
  destruct (handle_file_end_verified d t entry info name buffer answer rest w)
    as (w' & Hrun & Hp' & _ & _ & Hsave & Hdrop); try done.
  by exists w'.
Qed.


(** X13: a [file_data] message for a transfer whose expected size is 0 makes
    the progress computation divide by zero. The error is caught and
    logged and no progress is reported, but the chunk has already been
    appended to the buffer. *)
Theorem zero_size_transfer_takes_chunk d t entry buffer chunk w :
  d !! "transfer_id" = Some (PStr t) →
  d !! "type" = Some (PStr "file_data") →
  d !! "chunk" = Some (PBytes chunk) →
  pending_files w !! t = Some entry →
  entry !! "buffer" = Some (PBytes buffer) →
  entry !! "size" = Some (PInt 0) →
  ∃ w',
    _handle_file_data (PDict d) w = (Done tt, w')
    ∧ pending_files w'
      = <[t := <["buffer" := PBytes (buffer ++ chunk)]> entry]>
          (pending_files w)
    ∧ events w' = events w ++ [Log "错误" "处理文件数据失败"].
Proof.
  intros Hid Hty Hch Hp Hb Hsz.
  unfold _handle_file_data, py_get, is_pending, pending_entry, py_getitem,
    as_str, as_bytes, as_int.
  py_run.
  repeat (progress (rewrite ?Hid, ?Hp, ?Hty, ?Hb, ?Hch, ?Hsz; simpl)).
  eexists. split; [reflexivity|]. simpl.
  by rewrite (alter_alt_Some _ _ _ entry).
Qed.

End Receiving.

(** ** The sending task and its entry *)

Section Forgetting.
Context `{Pickle} `{Md5}.

#[local] Instance keeps_transfers_preorder : PreOrder keeps_transfers.
Proof.
  split.
  - by intros w.
  - intros w1 w2 w3 [Hp1 Hf1] [Hp2 Hf2]. split; congruence.
Qed.

Lemma steady_emit_transfers e : steady keeps_transfers (emit e).
Proof. by apply steady_modify. Qed.

Lemma steady_sock_send s data : steady keeps_transfers (sock_send s data).
Proof.
  intros w. unfold sock_send.
  destruct (sockets w !! s) as [sk|]; [|done].
  destruct (closed sk); [done|].
  by destruct (sends_left sk) as [[|q]|].
Qed.

#[local] Hint Resolve steady_emit_transfers steady_sock_send : steady.

Lemma steady_send_data data : steady keeps_transfers (send_data data).
Proof. unfold send_data, pack_len. repeat steady_step. Qed.

Lemma steady_open_rb path : steady keeps_transfers (open_rb path).
Proof. unfold open_rb. repeat steady_step. Qed.

#[local] Hint Resolve steady_send_data steady_open_rb : steady.

(** A turn of the sending loop that goes on has read at least one byte. *)
Lemma file_read_shrinks f n chunk f' :
  file_read f n = (chunk, f') → chunk ≠ [] → (length f' < length f)%nat.
Proof.
  unfold file_read. case_decide as Hn; intros [= <- <-] Hne.
  - destruct f; [done | simpl; lia].
  - rewrite length_drop. destruct f as [|b f]; [by rewrite take_nil in Hne|].
    destruct (Z.to_nat n); [done | simpl; lia].
Qed.

Lemma steady_send_chunks fuel t file_info file_size f sent_size :
  (length f < fuel)%nat →
  steady keeps_transfers (send_chunks fuel t file_info file_size f sent_size).
Proof.
  revert f sent_size. induction fuel as [|fuel IH]; intros f sent Hf; [lia|].
  cbn [send_chunks]. case_decide as Hlt; [|auto with steady typeclass_instances].
  apply steady_bind; [apply _ | auto with steady typeclass_instances |].
  intros n. destruct (file_read f n) as [chunk f'] eqn:Hread.
  case_decide as Hchunk; [auto with steady typeclass_instances|].
  assert (Hlen : (length f' < fuel)%nat).
  { pose proof (file_read_shrinks _ _ _ _ Hread Hchunk). lia. }
  specialize (IH f' (sent + blen chunk) Hlen).
  repeat steady_step.
Qed.

(** X14: [_file_transfer_task] looks its entry up before the [try]: for an
    id that is not pending it raises [KeyError] and changes nothing. Once
    the entry is there the task returns normally whatever the entry holds,
    whether or not the file can be opened and whatever happens on the
    connection; the entry is then gone, and no other transfer and no file
    has changed. *)
Theorem file_transfer_task_always_forgets t w :
  match pending_files w !! t with
  | None => _file_transfer_task t w = (Raised (KeyError t), w)
  | Some _ =>
      ∃ w', _file_transfer_task t w = (Done tt, w')
            ∧ pending_files w' = delete t (pending_files w)
            ∧ files w' = files w
  end.
Proof.
  destruct (pending_files w !! t) as [entry|] eqn:Hp.
  2:{ unfold _file_transfer_task, pending_entry. py_run. by rewrite Hp. }
  unfold _file_transfer_task.
  erewrite bind_done by (by apply pending_entry_ok).
  match goal with
  | |- context [try_except ?m ?h] =>
      assert (Hst : steady keeps_transfers m);
      [ pose proof steady_send_chunks; repeat steady_step
      | assert (Hbody : ∃ w1, try_except m h w = (Done tt, w1)
                              ∧ keeps_transfers w w1) ]
  end.
  { destruct (Hst w) as [Hns Hk].
    match goal with
    | |- context [try_except ?m ?h w] =>
        destruct (m w) as [[[]|e|] w1] eqn:Hm; cbn [fst snd] in *;
        [ rewrite (try_except_done _ _ _ _ _ Hm)
        | rewrite (try_except_raised _ _ _ _ _ Hm)
        | done ]
    end.
    - by exists w1.
    - eexists. split; [reflexivity|]. destruct Hk as [Hk1 Hk2]. by split. }
  destruct Hbody as (w1 & Hbody & Hp1 & Hf1).
  eexists. split.
  - eapply try_finally_done; [exact Hbody|].
    apply (del_pending_ok _ entry). by rewrite Hp1.
  - simpl. by rewrite Hp1, Hf1.
Qed.

End Forgetting.

(** ** Joining a meeting that answers *)

Section Answering.
Context `{Pickle}.

Lemma connect_to_server_fails_once ip port o rest w :
  network w = o :: rest → attempt_fails o = true →
  ∃ e w1,
    _connect_to_server ip port w = (Raised e, w1)
    ∧ events w1 = events w ++ [ConnectAttempt ip port]
    ∧ network w1 = rest
    ∧ retry_count w1 = retry_count w
    ∧ is_connected w1 = is_connected w.
Proof.
  intros Hn Ho. unfold _connect_to_server, new_socket, next_outcome.
  py_run. rewrite Hn. simpl.
  destruct o as [|[v|]]; simpl in *.
  - eexists _, _. split; [reflexivity|]. done.
  - pose proof (wait_for_connection_confirm_value v) as Hw.
    unfold mret, Py_ret in Hw. rewrite Hw.
    apply negb_true_iff in Ho. rewrite Ho.
    eexists _, _. split; [reflexivity|]. done.
  - eexists _, _. split; [reflexivity|]. done.
Qed.

Lemma connect_to_server_succeeds ip port v rest w :
  network w = Connected (Some v) :: rest → confirms v = true →
  ∃ w1,
    _connect_to_server ip port w = (Done tt, w1)
    ∧ retry_events (events w1)
      = retry_events (events w) ++ [ConnectAttempt ip port]
    ∧ network w1 = rest
    ∧ is_connected w1 = true
    ∧ client_socket w1 = Some (fresh (dom (sockets w)))
    ∧ sockets w1 !! fresh (dom (sockets w)) = Some (Socket [] [] None false).
Proof.
  intros Hn Hv. unfold _connect_to_server, new_socket, next_outcome.
  py_run. rewrite Hn. simpl.
  pose proof (wait_for_connection_confirm_value v) as Hw.
  unfold mret, Py_ret in Hw. rewrite Hw, Hv.
  eexists. split; [reflexivity|]. simpl. split_and!; try done.
  - unfold retry_events. rewrite <- !app_assoc, omap_app. done.
  - apply lookup_insert_eq.
Qed.

Lemma join_attempts_succeed ip port v rest fails k m w :
  network w = fails ++ Connected (Some v) :: rest →
  Forall (λ o, attempt_fails o = true) fails →
  confirms v = true →
  (length fails < m)%nat →
  Z.of_nat (k + m) <= retry_count w →
  ∃ w',
    join_attempts (Z.of_nat <$> seq k m) ip port w = (Done tt, w')
    ∧ is_connected w' = true
    ∧ network w' = rest
    ∧ retry_events (events w')
      = retry_events (events w)
        ++ concat (replicate (length fails) [ConnectAttempt ip port; Slept 1])
        ++ [ConnectAttempt ip port].
Proof.
  intros Hn Hfails Hv. revert k m w Hn.
  induction Hfails as [|o fails Ho Hfails IH]; intros k m w Hn Hm Hrc.
  - destruct m as [|m]; [simpl in Hm; lia|].
    destruct (connect_to_server_succeeds ip port v rest w Hn Hv)
      as (w1 & Hrun & Hev & Hnet & Hc & _).
    exists w1. split_and!; try done.
    cbn [seq fmap list_fmap join_attempts].
    erewrite bind_done
      by (apply try_except_done; erewrite bind_done by exact Hrun;
          reflexivity).
    done.
  - destruct m as [|m]; [simpl in Hm; lia|].
    destruct (connect_to_server_fails_once ip port o
                (fails ++ Connected (Some v) :: rest) w Hn Ho)
      as (e & w1 & Hrun & Hev & Hnet & Hrc1 & Hc1).
    destruct (IH (S k) m (set_events (events w1 ++ [Slept 1]) w1))
      as (w' & Hrest & Hc' & Hnet' & Hev').
    { done. }
    { simpl in Hm. lia. }
    { simpl. lia. }
    exists w'. split_and!; try done.
    + cbn [seq fmap list_fmap join_attempts].
      erewrite bind_done.
      2:{ erewrite try_except_raised
            by (erewrite bind_raised by exact Hrun; reflexivity).
          erewrite bind_done by (unfold gets; reflexivity). cbn beta.
          rewrite decide_False by (simpl in Hm; lia).
          erewrite bind_done by reflexivity. reflexivity. }
      exact Hrest.
    + rewrite Hev'. simpl. rewrite Hev. unfold retry_events.
      rewrite !omap_app. simpl. by rewrite <- !app_assoc.
Qed.

(** X15: when the first attempts to connect fail and the next one meets a
    host whose handshake is confirmed, with attempts to spare,
    [join_meeting] stops at that attempt, connected: it has slept one
    second after each failure, made no further attempt and emitted no
    error signal. *)
Theorem join_succeeds_after_failures ip port fails v rest w :
  is_connected w = false →
  network w = fails ++ Connected (Some v) :: rest →
  Forall (λ o, attempt_fails o = true) fails →
  confirms v = true →
  Z.of_nat (length fails) < retry_count w →
  ∃ w',
    join_meeting ip (Some port) w = (Done tt, w')
    ∧ is_connected w' = true
    ∧ network w' = rest
    ∧ retry_events (events w')
      = retry_events (events w)
        ++ concat (replicate (length fails) [ConnectAttempt ip port; Slept 1])
        ++ [ConnectAttempt ip port].
Proof.
  intros Hc Hn Hfails Hv Hrc.
  destruct (join_attempts_succeed ip port v rest fails 0
              (Z.to_nat (retry_count w)) w)
    as (w' & Hrun & Hres); try done; [lia | lia |].
  exists w'. split; [|done]. unfold join_meeting.
  erewrite bind_done by (unfold gets; reflexivity). rewrite Hc.
  cbn [negb]. erewrite bind_done by (unfold gets; reflexivity).
  exact Hrun.
Qed.

(** X16: the message that [accept_connections] sends first on a new
    connection is the one that [_wait_for_connection_confirm] waits for,
    whatever the clock reading in it; and whatever else arrives instead,
    or if waiting raises, the check answers [False] or [True] and does not
    raise. *)
Theorem host_handshake_is_confirmed timestamp handshake w :
  _wait_for_connection_confirm (mret (welcome_data timestamp)) w
  = (Done true, w)
  ∧ ∃ b, _wait_for_connection_confirm
           (match handshake with
            | Some v => mret v
            | None => raise OSError
            end) w = (Done b, w).
Proof.
  split.
  - rewrite wait_for_connection_confirm_value. done.
  - destruct handshake as [v|].
    + exists (confirms v). apply wait_for_connection_confirm_value.
    + by exists false.
Qed.

End Answering.

(** ** The receive loop of a client *)

Section Listening.
Context `{Pickle} `{Md5}.

#[local] Existing Instance only_reads_preorder.

Lemma client_reads_same s w w' :
  client_socket w' = client_socket w → is_connected w' = is_connected w →
  clients w' = clients w → is_host w' = is_host w → sockets w' = sockets w →
  client_reads s w w'.
Proof. intros. split_and!; try done. by apply only_reads_same. Qed.

#[local] Instance client_reads_preorder s : PreOrder (client_reads s).
Proof.
  split.
  - intros w. by apply client_reads_same.
  - intros w1 w2 w3 (Hc1 & Hi1 & Hr1) (Hc2 & Hi2 & Hr2).
    split_and!; [congruence | congruence | by etrans].
Qed.

Lemma steady_client_modify s f :
  (∀ w, client_socket (f w) = client_socket w
        ∧ is_connected (f w) = is_connected w
        ∧ clients (f w) = clients w ∧ is_host (f w) = is_host w
        ∧ sockets (f w) = sockets w) →
  steady (client_reads s) (modify f).
Proof.
  intros Hf. apply steady_modify. intros w.
  destruct (Hf w) as (? & ? & ? & ? & ?). by apply client_reads_same.
Qed.

Lemma steady_client_emit s e : steady (client_reads s) (emit e).
Proof. by apply steady_client_modify. Qed.

Lemma sock_recv_client s n w :
  (sock_recv s n w).1 ≠ Stuck
  ∧ client_reads s w (sock_recv s n w).2
  ∧ ∀ chunk, (sock_recv s n w).1 = Done chunk → chunk ≠ [] →
      (pending_bytes (sock_recv s n w).2 s < pending_bytes w s)%nat.
Proof.
  destruct (sock_recv_reads s n w) as (Hns & Hro & Hdec).
  split_and!; [done | | done]. split_and!; [| | done].
  all: unfold sock_recv; by repeat case_match.
Qed.

Lemma recv_payload_client fuel s data_size received w :
  (pending_bytes w s < fuel)%nat →
  (recv_payload fuel s data_size received w).1 ≠ Stuck
  ∧ client_reads s w (recv_payload fuel s data_size received w).2.
Proof.
  revert received w. induction fuel as [|fuel IH]; intros received w Hf; [lia|].
  cbn [recv_payload]. case_decide as Hlt; [|by split].
  unfold mbind, Py_bind.
  destruct (sock_recv_client s (Z.min (data_size - blen received) 8192) w)
    as (Hns & Hro & Hdec).
  destruct (sock_recv s _ w) as [[chunk|e|] w1]; simpl in *; [|done|done].
  case_decide as Hchunk; [by split|].
  destruct (IH (received ++ chunk) w1) as [Hns1 Hro1].
  { specialize (Hdec chunk eq_refl Hchunk). lia. }
  split; [done|]. by etrans.
Qed.

Lemma steady_client_recv_all s data_size :
  steady (client_reads s) (recv_all s data_size).
Proof.
  intros w. unfold recv_all, recv_fuel, mbind, Py_bind, gets.
  apply recv_payload_client. unfold pending_bytes, bytes_available.
  destruct (sockets w !! s); lia.
Qed.

#[local] Hint Resolve steady_client_emit steady_client_recv_all : steady.







End Listening.

(** * Concrete runs *)




Section Samples.
#[local] Existing Instance Sample.pickle.
#[local] Existing Instance Sample.md5.


(** C4 fails on the code: the peer announces 5 bytes, sends 2 and closes.
    In [handle_client] and in [receive_data] the empty chunk only leaves the
    inner loop, and the 2 bytes that did arrive are handed to
    [pickle.loads]; [receive_from_client] returns [None] there without
    decoding. The empty read of the length prefix does end both loops. *)
Theorem truncated_payload_reaches_decoder :
  events (handle_client 0%nat (Sample.host_receiving Sample.truncated_stream)).2
    = [Log "连接" "开始处理客户端连接";
       Log "连接" "客户端断开连接(接收数据中断)";
       Unpickle [x61; x62];
       Log "错误" "数据处理失败";
       Log "连接" "客户端断开连接(size_data为空)";
       Log "连接" "客户端连接处理结束"]
  ∧ events (receive_data (Sample.peer Sample.truncated_stream)).2
    = [Unpickle [x61; x62]; Log "print" "接收数据时出错";
       UiDisconnected; ChatShown "系统" (PStr "已断开连接")]
  ∧ (receive_from_client 0%nat (Sample.peer Sample.truncated_stream)).1
    = Done PNone
  ∧ events (receive_from_client 0%nat (Sample.peer Sample.truncated_stream)).2
    = [].
Proof. split_and!; vm_compute; reflexivity. Qed.

(** C2 fails on the code: client A sends the chat message "hi"; the host's
    handler for A reads it and shows it on the host, once, but writes
    nothing on B's connection, so that B never sees the message. A itself
    shows its message once and gets nothing back. *)
Theorem chat_is_not_relayed :
  let wa := (send_chat_message "hi" "12:00:00" (Sample.peer [])).2 in
  let wh := (handle_client 0%nat
               (Sample.host_receiving [Sample.frame Sample.chat_hi])).2 in
  written wa 0%nat = Some (Sample.frame Sample.chat_hi)
  ∧ events wa = [ChatShown "我" (PStr "hi")]
  ∧ chat_shown (events wh) = [("对方"%string, PStr "hi")]
  ∧ written wh 1%nat = Some []
  ∧ written wh 0%nat = Some [].
Proof. split_and!; vm_compute; reflexivity. Qed.

(** C5 fails on the code: the chunk of "t1" arrives with one bit flipped
    and then [file_end]. The digest differs, [_complete_file_transfer]
    raises before its [del], and the entry with the corrupted buffer is
    still in [pending_files]; the only trace of the failure is a log line.
    No save dialog opens, but 100 was already reported when the chunk
    arrived. *)
Theorem corrupted_transfer_is_kept :
  let w1 := (_handle_file_data (PDict (Sample.file_data_t1 Sample.abb))
               Sample.receiver).2 in
  let r := _handle_file_data (PDict Sample.file_end_t1) w1 in
  r.1 = Done tt
  ∧ pending_files r.2 !! "t1" = Some (Sample.receiving Sample.abb)
  ∧ events r.2 = [FileProgress "f.bin" 100; Log "错误" "处理文件数据失败"].
Proof. split_and!; vm_compute; reflexivity. Qed.

Lemma unknown_transfer_ignored_witness :
  _handle_file_data (PDict Sample.file_end_t1) (Sample.peer [])
  = (Done tt, Sample.peer []).
Proof.
  apply (unknown_transfer_ignored Sample.file_end_t1 "t1" (Sample.peer [])).
  - vm_compute. reflexivity.
  - vm_compute. reflexivity.
Defined.

Lemma empty_file_transfer_witness :
  ∃ w', _file_transfer_task "t1" (Sample.sender [] 0) = (Done tt, w')
    ∧ written w' 0%nat
      = Some (Sample.frame (file_info_message "t1"
                              (PDict (Sample.sending_info [] 0)))
              ++ Sample.frame (file_end_message "t1"
                                 (PStr (Sample.md5 []))))
    ∧ events w' = []
    ∧ pending_files w' = ∅.
Proof.
  destruct (empty_file_transfer "t1" (Sample.sending [] 0)
              (Sample.sending_info [] 0) "/tmp/f.bin" []
              (PStr (Sample.md5 [])) 0%nat Sample.healthy
              (Sample.sender [] 0))
    as (w' & Hrun & Hw & He & Hp).
  - vm_compute. reflexivity.
  - vm_compute. reflexivity.
  - vm_compute. reflexivity.
  - vm_compute. reflexivity.
  - vm_compute. reflexivity.
  - vm_compute. reflexivity.
  - vm_compute. reflexivity.
  - vm_compute. reflexivity.
  - vm_compute. reflexivity.
  - vm_compute. reflexivity.
  - vm_compute. reflexivity.
  - vm_compute. reflexivity.
  - exists w'. split_and!.
    + exact Hrun.
    + rewrite Hw. vm_compute. reflexivity.
    + rewrite He. vm_compute. reflexivity.
    + rewrite Hp. vm_compute. reflexivity.
Defined.




Lemma handshake_then_register_witness :
  ∃ w',
    accept_one 5%nat "2024-01-01 12:00:00" Sample.host_accepting = (Done tt, w')
    ∧ written w' 5%nat
      = Some (Sample.frame (welcome_data "2024-01-01 12:00:00"))
    ∧ clients w' = [0%nat; 5%nat]
    ∧ events w' = [Log "连接" "已发送连接确认";
                   ThreadStarted "handle_client" (Some 5%nat)].
Proof.
  destruct (handshake_then_register 5%nat "2024-01-01 12:00:00" []
              Sample.host_accepting Sample.healthy)
    as (w' & Hrun & _ & Hok & _).
  - vm_compute. reflexivity.
  - vm_compute. reflexivity.
  - destruct Hok as (Hw & _ & Hcl & Hev); [vm_compute; reflexivity|].
    exists w'. split_and!.
    + exact Hrun.
    + rewrite Hw. vm_compute. reflexivity.
    + rewrite Hcl. reflexivity.
    + rewrite Hev. reflexivity.
Defined.

Lemma join_retries_then_fails_witness :
  ∃ e w',
    join_meeting "192.168.1.20" (Some 9999) Sample.nobody_home = (Done tt, w')
    ∧ events w'
      = [ConnectAttempt "192.168.1.20" 9999; Slept 1;
         ConnectAttempt "192.168.1.20" 9999; Slept 1;
         ConnectAttempt "192.168.1.20" 9999; ConnectionErrorSignal e]
    ∧ is_connected w' = false.
Proof.
  apply (join_retries_then_fails "192.168.1.20" 9999 Sample.nobody_home).
  - vm_compute. reflexivity.
  - vm_compute. reflexivity.
  - repeat constructor.
Defined.


(** The payload may arrive in any pieces; the length prefix may not: when
    the first read returns two of its four bytes, [struct.unpack] raises. *)
Example payload_in_pieces :
  (receive_from_client 0%nat
     (Sample.peer [take 9 (Sample.frame Sample.chat_hi);
                   take 30 (drop 9 (Sample.frame Sample.chat_hi));
                   drop 39 (Sample.frame Sample.chat_hi)])).1
  = Done Sample.chat_hi.
Proof. vm_compute. reflexivity. Qed.

Example prefix_in_two_reads :
  (receive_from_client 0%nat
     (Sample.peer [take 2 (Sample.frame Sample.chat_hi);
                   drop 2 (Sample.frame Sample.chat_hi)])).1
  = Raised StructError.
Proof. vm_compute. reflexivity. Qed.

(** When the chunk arrives intact the digest matches: the save dialog
    opens, the file is written and the entry is deleted. *)
Example intact_transfer_is_saved :
  let w1 := (_handle_file_data (PDict (Sample.file_data_t1 Sample.abc))
               Sample.receiver).2 in
  let r := _handle_file_data (PDict Sample.file_end_t1) w1 in
  r.1 = Done tt
  ∧ pending_files r.2 !! "t1" = None
  ∧ files r.2 !! "/tmp/f.bin" = Some Sample.abc
  ∧ events r.2 = [FileProgress "f.bin" 100; SaveDialog "f.bin";
                  FileWritten "/tmp/f.bin" Sample.abc;
                  FileProgress "f.bin" 100].
Proof. split_and!; vm_compute; reflexivity. Qed.

(** *** Runs of the further properties *)


Lemma receive_from_client_truncated_witness :
  ∃ w',
    receive_from_client 0%nat
      (Sample.peer [[x00; x00; x00; x05]; [x61; x62]]) = (Done PNone, w')
    ∧ events w' = []
    ∧ unread w' 0%nat = Some [].
Proof.
  apply (receive_from_client_truncated 0%nat [x00; x00; x00; x05] 5
           [[x61; x62]] (Sample.peer [[x00; x00; x00; x05]; [x61; x62]])
           (Socket [[x00; x00; x00; x05]; [x61; x62]] [] None false)).
  - vm_compute. reflexivity.
  - vm_compute. reflexivity.
  - vm_compute. reflexivity.
  - vm_compute. reflexivity.
  - vm_compute. reflexivity.
Defined.

Lemma send_to_client_breaks_after_prefix_witness :
  ∃ size w',
    send_to_client 0%nat Sample.chat_hi
      (with_socket 0%nat (Socket [] [] (Some 1%nat) false) Sample.host0)
    = (Raised OSError, w')
    ∧ struct_unpack_I size = Some (blen (dumps Sample.chat_hi))
    ∧ written w' 0%nat = Some ([] ++ size)
    ∧ events w' = [] ++ [Log "错误" "发送数据到客户端失败"].
Proof.
  apply (send_to_client_breaks_after_prefix 0%nat Sample.chat_hi
           (with_socket 0%nat (Socket [] [] (Some 1%nat) false) Sample.host0)
           (Socket [] [] (Some 1%nat) false)).
  - vm_compute. reflexivity.
  - vm_compute. reflexivity.
  - vm_compute. reflexivity.
  - vm_compute. reflexivity.
Defined.


Lemma host_chat_reaches_live_clients_witness :
  ∃ w',
    send_chat_message "hi" "12:00:00" Sample.host3 = (Done tt, w')
    ∧ clients w' = [0%nat; 2%nat]
    ∧ written w' 2%nat
      = Some (Sample.frame (chat_message "hi" "12:00:00" true)).
Proof.
  destruct (host_chat_reaches_live_clients "hi" "12:00:00" Sample.host3)
    as (w' & Hrun & Hcl & Hsent & _).
  - discriminate.
  - vm_compute. reflexivity.
  - vm_compute. reflexivity.
  - vm_compute. reflexivity.
  - apply (bool_decide_unpack _). vm_compute. exact I.
  - intros c Hc.
    apply elem_of_cons in Hc as [->|Hc]; [by exists Sample.healthy|].
    apply elem_of_cons in Hc as [->|Hc]; [by exists Sample.pre_closed|].
    apply elem_of_cons in Hc as [->|Hc]; [by exists Sample.healthy|].
    by apply elem_of_nil in Hc.
  - exists w'. split_and!.
    + exact Hrun.
    + rewrite Hcl. vm_compute. reflexivity.
    + rewrite (Hsent 2%nat Sample.healthy);
        [vm_compute; reflexivity
        | apply (bool_decide_unpack _); vm_compute; exact I
        | vm_compute; reflexivity | vm_compute; reflexivity].
Defined.

Lemma accept_connections_registers_in_order_witness :
  ∃ w',
    accept_connections [Some (5%nat, "12:00:00"%string); None]
      Sample.host_accepting = (Done tt, w')
    ∧ clients w' = [0%nat; 5%nat].
Proof.
  destruct (accept_connections_registers_in_order
              [Some (5%nat, "12:00:00"%string); None] Sample.host_accepting)
    as (w' & Hrun & Hcl & _).
  - vm_compute. reflexivity.
  - apply (bool_decide_unpack _). vm_compute. exact I.
  - intros c t Hc.
    apply elem_of_cons in Hc as [[= -> ->]|Hc]; [by exists Sample.healthy|].
    apply elem_of_cons in Hc as [?|Hc]; [done|].
    by apply elem_of_nil in Hc.
  - exists w'. split; [exact Hrun|]. rewrite Hcl. vm_compute. reflexivity.
Defined.


Lemma empty_frame_ends_handler_witness :
  ∃ w',
    handle_client 0%nat
      (Sample.host_receiving [[x00; x00; x00; x00];
                              Sample.frame Sample.chat_hi])
    = (Done tt, w')
    ∧ unread w' 0%nat = Some (Sample.frame Sample.chat_hi)
    ∧ events w' = [Log "连接" "开始处理客户端连接";
                   Log "连接" "客户端连接处理结束"].
Proof.
  destruct (empty_frame_ends_handler 0%nat
              (Sample.host_receiving [[x00; x00; x00; x00];
                                      Sample.frame Sample.chat_hi])
              (Socket [[x00; x00; x00; x00]; Sample.frame Sample.chat_hi]
                      [] None false)
              [x00; x00; x00; x00] [Sample.frame Sample.chat_hi])
    as (w' & Hrun & Hun & Hev & _).
  - vm_compute. reflexivity.
  - vm_compute. reflexivity.
  - vm_compute. reflexivity.
  - vm_compute. reflexivity.
  - vm_compute. reflexivity.
  - exists w'. split_and!.
    + exact Hrun.
    + rewrite Hun. vm_compute. reflexivity.
    + rewrite Hev. reflexivity.
Defined.

Lemma stop_server_closes_everything_witness :
  ∃ w',
    stop_server 9%nat Sample.host3 = (Done tt, w')
    ∧ is_host w' = false ∧ is_connected w' = false ∧ clients w' = []
    ∧ sockets w' !! 0%nat = Some (shut Sample.healthy).
Proof.
  destruct (stop_server_closes_everything 9%nat Sample.host3)
    as (w' & Hrun & Hh & Hc & Hcl & Hshut & _).
  - vm_compute. reflexivity.
  - exists w'. split_and!; try done.
    rewrite Hshut; [vm_compute; reflexivity|].
    left. apply (bool_decide_unpack _). vm_compute. exact I.
Defined.


Lemma verified_transfer_is_saved_or_dropped_witness :
  ∃ w',
    _handle_file_data (PDict Sample.file_end_t1)
      (set_pending_files {[ "t1"%string := Sample.receiving Sample.abc ]}
         Sample.receiver) = (Done tt, w')
    ∧ pending_files w' = ∅
    ∧ files w' !! "/tmp/f.bin" = Some Sample.abc.
Proof.
  destruct (verified_transfer_is_saved_or_dropped Sample.file_end_t1 "t1"
              (Sample.receiving Sample.abc) Sample.info_abc "f.bin" Sample.abc
              (Some "/tmp/f.bin"%string) []
              (set_pending_files {[ "t1"%string := Sample.receiving Sample.abc ]}
                 Sample.receiver))
    as (w' & Hrun & Hp & Hsave & _).
  - vm_compute. reflexivity.
  - vm_compute. reflexivity.
  - vm_compute. reflexivity.
  - vm_compute. reflexivity.
  - vm_compute. reflexivity.
  - vm_compute. reflexivity.
  - vm_compute. reflexivity.
  - vm_compute. reflexivity.
  - destruct (Hsave "/tmp/f.bin"%string eq_refl) as [Hf _]; [discriminate|].
    exists w'. split_and!.
    + exact Hrun.
    + rewrite Hp. vm_compute. reflexivity.
    + rewrite Hf. vm_compute. reflexivity.
Defined.


(** The same run, value by value: the two full chunks give 49 and 99, the
    last chunk gives 100, and saving gives 100 again. *)
Example three_chunks_received :
  progress_reported
    (events
       (handle_all ((file_data_message "t1"
                       <$> file_chunks (Z.to_nat 8192) Sample.three_chunks)
                    ++ [file_end_message "t1"
                          (PStr (md5_hexdigest Sample.three_chunks))])
          (Sample.receives Sample.three_chunks)).2)
  = [("f.bin"%string, 49); ("f.bin"%string, 99); ("f.bin"%string, 100);
     ("f.bin"%string, 100)].
Proof. vm_compute. reflexivity. Qed.

Lemma zero_size_transfer_takes_chunk_witness :
  ∃ w',
    _handle_file_data (PDict (Sample.file_data_t1 Sample.abc))
      (set_pending_files
         {[ "t1"%string := <["size" := PInt 0]> (Sample.receiving []) ]}
         Sample.receiver) = (Done tt, w')
    ∧ pending_files w' !! "t1"
      = Some (<["size" := PInt 0]> (Sample.receiving Sample.abc))
    ∧ events w' = [Log "错误" "处理文件数据失败"].
Proof.
  destruct (zero_size_transfer_takes_chunk (Sample.file_data_t1 Sample.abc)
              "t1" (<["size" := PInt 0]> (Sample.receiving [])) [] Sample.abc
              (set_pending_files
                 {[ "t1"%string := <["size" := PInt 0]> (Sample.receiving []) ]}
                 Sample.receiver))
    as (w' & Hrun & Hp & He).
  - vm_compute. reflexivity.
  - vm_compute. reflexivity.
  - vm_compute. reflexivity.
  - vm_compute. reflexivity.
  - vm_compute. reflexivity.
  - vm_compute. reflexivity.
  - exists w'. split_and!.
    + exact Hrun.
    + rewrite Hp. vm_compute. reflexivity.
    + rewrite He. reflexivity.
Defined.

Lemma join_succeeds_after_failures_witness :
  ∃ w',
    join_meeting "192.168.1.20" (Some 9999) Sample.host_answers_third
    = (Done tt, w')
    ∧ is_connected w' = true
    ∧ retry_events (events w')
      = [ConnectAttempt "192.168.1.20" 9999; Slept 1;
         ConnectAttempt "192.168.1.20" 9999; Slept 1;
         ConnectAttempt "192.168.1.20" 9999].
Proof.
  destruct (join_succeeds_after_failures "192.168.1.20" 9999
              [Refused; Connected None] (welcome_data "12:00:00") []
              Sample.host_answers_third)
    as (w' & Hrun & Hc & _ & Hev).
  - vm_compute. reflexivity.
  - vm_compute. reflexivity.
  - repeat constructor.
  - vm_compute. reflexivity.
  - vm_compute. reflexivity.
  - exists w'. split_and!.
    + exact Hrun.
    + exact Hc.
    + rewrite Hev. reflexivity.
Defined.


End Samples.
